(** * Mobile simulator: device-profile store and phone-frame layout

    A shallow embedding of [mobile_simulator/config_manager.py] and of the
    layout and handler code of [mobile_simulator/main.py].

    - Python [int] is [Z]; Python [float] is an IEEE 754 binary64 value, taken
      from the Standard Library's executable specification [spec_float]
      (precision 53, [emax] 1024), so that [int * float], [int / float] and
      [int(float)] round and truncate exactly as CPython does.
    - A raised exception is the [Raise] branch of [result].
    - The configuration dictionary is a record with the six keys that
      [load_config] and [save_config] read and write.
    - Qt widgets are records holding the integers and strings the code hands
      to them. Of Qt itself the model keeps what the Python code can
      observe: an int argument that does not fit C [int] raises
      [OverflowError], and a size read back from a widget lies within
      [0, QWIDGETSIZE_MAX]. What Qt draws is outside the model. *)

From Stdlib Require Import ZArith QArith Lia Bool Ascii String.
From Stdlib Require Import Floats.SpecFloat.
From stdpp Require Import base list strings.

Local Open Scope Z_scope.

(** ** Exceptions *)

Inductive PyExn : Type :=
| OverflowError
| ValueError
| ZeroDivisionError
| IndexError.

Inductive result (A : Type) : Type :=
| Ok (a : A)
| Raise (e : PyExn).

Arguments Ok {A} a.
Arguments Raise {A} e.

#[global] Instance result_ret : MRet result := fun _ a => Ok a.

#[global] Instance result_bind : MBind result := fun _ _ k r =>
  match r with
  | Ok a => k a
  | Raise e => Raise e
  end.

(** ** Python floats *)

Module PyFloat.

Definition prec : Z := 53.
Definition emax : Z := 1024.

Definition float : Type := spec_float.

(** [float(n)] for a Python int: round to nearest even; an int whose
    rounding leaves the binary64 range raises [OverflowError]. *)
Definition of_int (n : Z) : result float :=
  match binary_normalize prec emax n 0 false with
  | S754_infinity _ => Raise OverflowError
  | x => Ok x
  end.

Definition mul (x y : float) : float := SFmul prec emax x y.

Definition is_zero (x : float) : bool :=
  match x with
  | S754_zero _ => true
  | _ => false
  end.

(** [x / y] on floats: a zero divisor raises. *)
Definition truediv (x y : float) : result float :=
  if is_zero y then Raise ZeroDivisionError else Ok (SFdiv prec emax x y).

(** [n * x] with [n] an int and [x] a float: [n] is converted first. *)
Definition int_mul (n : Z) (x : float) : result float :=
  fn ← of_int n; Ok (mul fn x).

(** [n / x] with [n] an int and [x] a float. *)
Definition int_truediv (n : Z) (x : float) : result float :=
  fn ← of_int n; truediv fn x.

(** [int(x)]: truncation toward zero; NaN and the infinities raise. *)
Definition to_int (x : float) : result Z :=
  match x with
  | S754_nan => Raise ValueError
  | S754_infinity _ => Raise OverflowError
  | S754_zero _ => Ok 0
  | S754_finite s m e => Ok (cond_Zopp s (Z.shiftl (Zpos m) e))
  end.

(** [round(x)] with one argument: nearest integer, ties to even. This is
    the rounding the specification names; the code never calls it. *)
Definition round (x : float) : result Z :=
  match x with
  | S754_nan => Raise ValueError
  | S754_infinity _ => Raise OverflowError
  | S754_zero _ => Ok 0
  | S754_finite s m e =>
      let q := Z.shiftl (Zpos m) e in
      let r := Zpos m - Z.shiftl q (- e) in
      let up :=
        match e with
        | Zneg k =>
            match Z.compare (2 * r) (Z.pow 2 (Zpos k)) with
            | Lt => false
            | Eq => Z.odd q
            | Gt => true
            end
        | _ => false
        end in
      Ok (cond_Zopp s (if up then q + 1 else q))
  end.

Definition is_finite (x : float) : bool :=
  match x with
  | S754_zero _ | S754_finite _ _ _ => true
  | _ => false
  end.

(** [x] is finite and [|x| < 2^k]. *)
Definition magnitude_below (k : Z) (x : float) : bool :=
  match x with
  | S754_zero _ => true
  | S754_finite _ m e => Zpos (digits2_pos m) + e <=? k
  | _ => false
  end.

(** The exact rational value of a finite float (0 for the others). *)
Definition to_Q (x : float) : Q :=
  match x with
  | S754_finite s m (Zneg k) => Qmake (cond_Zopp s (Zpos m)) (Pos.pow 2 k)
  | S754_finite s m e => inject_Z (cond_Zopp s (Zpos m * Z.pow 2 e))
  | _ => 0%Q
  end.

(** [t] is [x] with its fractional part dropped. *)
Definition truncation_of (t : Z) (x : float) : Prop :=
  is_finite x = true /\
  ((0 <= to_Q x)%Q -> (inject_Z t <= to_Q x < inject_Z t + 1)%Q) /\
  ((to_Q x <= 0)%Q -> (inject_Z t - 1 < to_Q x <= inject_Z t)%Q).

(** A decimal literal [n/d] whose numerator and denominator are exact
    floats: the correctly rounded quotient is the literal's value. *)
Definition literal (n d : Z) : float :=
  SFdiv prec emax (binary_normalize prec emax n 0 false)
                  (binary_normalize prec emax d 0 false).

End PyFloat.

Abbreviation float := PyFloat.float.

(** ** The boundary to PySide and Qt *)

Module Qt.

(** An int handed to a Qt method is converted to C [int]; a value outside
    [-2^31, 2^31) raises [OverflowError]. *)
Definition c_int (n : Z) : result Z :=
  if (- 2 ^ 31 <=? n) && (n <? 2 ^ 31) then Ok n else Raise OverflowError.

Definition QWIDGETSIZE_MAX : Z := 16777215.

(** What [width()] or [height()] reads after a fixed extent [n] was set:
    Qt keeps a widget's extent within [0, QWIDGETSIZE_MAX]. *)
Definition bounded (n : Z) : Z := Z.max 0 (Z.min n QWIDGETSIZE_MAX).

(** [widget.setFixedSize(w, h)]; the result is the size read back. *)
Definition setFixedSize (w h : Z) : result (Z * Z) :=
  w ← c_int w; h ← c_int h; Ok (bounded w, bounded h).

(** [widget.setGeometry(x, y, w, h)]; the result is the rectangle handed
    over. *)
Definition setGeometry (x y w h : Z) : result (Z * Z * Z * Z) :=
  x ← c_int x; y ← c_int y; w ← c_int w; h ← c_int h; Ok (x, y, w, h).

(** [widget.move(x, y)] and [widget.resize(w, h)]. *)
Definition move (x y : Z) : result (Z * Z) :=
  x ← c_int x; y ← c_int y; Ok (x, y).

Definition resize (w h : Z) : result (Z * Z) :=
  w ← c_int w; h ← c_int h; Ok (w, h).

(** An extent that a widget takes as it is. [QWIDGETSIZE_MAX] itself is
    Qt's mark for an extent without constraint and is left out. *)
Definition fits_widget (n : Z) : Prop := 0 <= n < QWIDGETSIZE_MAX.

End Qt.

(** ** Device profiles and the configuration dictionary *)

Record Device : Type := mkDevice {
  name : string;
  width : Z;
  height : Z;
  radius : Z
}.

(** Every dimension of the profile is below [2^16] in absolute value. *)
Definition dims_in_range (d : Device) : Prop :=
  Z.abs (width d) < 2 ^ 16 /\ Z.abs (height d) < 2 ^ 16 /\
  Z.abs (radius d) < 2 ^ 16.

(** The scale is finite and below 16 in absolute value. With a profile in
    range every int of the layout then stays below [2^23], far inside C
    [int] and inside the extents Qt gives a widget. *)
Definition scale_in_range (scale : float) : Prop :=
  PyFloat.magnitude_below 4 scale = true.

Record Config : Type := mkConfig {
  last_url : string;
  last_device_index : Z;
  last_frame_color : string;
  last_frame_border : string;
  last_scale : float;
  custom_devices : list Device
}.

(** ** [BezelOverlay] *)

Module BezelOverlay.

(** The attributes [set_params] stores, and the overlay's size as Qt
    reports it (its [rect()] is [(0, 0, w, h)]). *)
Record t : Type := mk {
  radius : Z;
  scale : float;
  base_color : string;
  border_color : string;
  bezel_w : Z;
  size : Z * Z
}.

Definition bezel_base_w : Z := 16.

(** [__init__]; [size] is the size Qt gives a new child widget, which
    [setFixedSize] replaces before anything reads it. *)
Definition init : t :=
  {| radius := 50; scale := PyFloat.literal 1 1; base_color := "#111";
     border_color := "#444"; bezel_w := bezel_base_w; size := (100, 30) |}.

Definition set_params (self : t) (radius : Z) (scale : float)
    (base border : string) : result t :=
  bw ← PyFloat.int_mul bezel_base_w scale ≫= PyFloat.to_int;
  Ok {| radius := radius; scale := scale; base_color := base;
        border_color := border; bezel_w := bw; size := size self |}.

(** [QRect.adjusted] on a rectangle given as [(x, y, w, h)]. *)
Definition adjusted (r : Z * Z * Z * Z) (dx1 dy1 dx2 dy2 : Z) : Z * Z * Z * Z :=
  let '(x, y, w, h) := r in
  (x + dx1, y + dy1, w + dx2 - dx1, h + dy2 - dy1).

(** The geometry [paintEvent] computes for the hole cut for the screen:
    the hole rectangle and its corner radius. *)
Record hole : Type := mkHole {
  inner_rect : Z * Z * Z * Z;
  inner_r : Z
}.

Definition paintEvent (self : t) : hole :=
  let rect := (0, 0, fst (size self), snd (size self)) in
  let margin := bezel_w self in
  let inner_rect := adjusted rect margin margin (- margin) (- margin) in
  let inner_r := Z.max 0 (radius self - margin) in
  {| inner_rect := inner_rect; inner_r := inner_r |}.

End BezelOverlay.

(** ** [ConfigManager] *)

Module ConfigManager.

Definition DEFAULT_DEVICES : list Device :=
  [ mkDevice "iPhone 17" 393 852 55;
    mkDevice "iPhone 16" 393 852 55;
    mkDevice "iPhone 13/14/15" 390 844 50;
    mkDevice "iPhone Pro Max" 430 932 55;
    mkDevice "iPhone Mini" 375 812 45 ].

(** The manager's dictionary together with the file at [config_path]:
    [file] is the file's content ([None] while it does not exist) and
    [writes] counts the calls of [json.dump] on it. *)
Record t : Type := mk {
  config : Config;
  file : option Config;
  writes : nat
}.

Definition default_config : Config :=
  {| last_url := "http://localhost:5173";
     last_device_index := 2;
     last_frame_color := "#111";
     last_frame_border := "#444";
     last_scale := PyFloat.literal 7 10;
     custom_devices := [] |}.

Definition load_config (file : option Config) : Config :=
  match file with
  | Some c => c
  | None => default_config
  end.

(** [__init__] over a file system whose [config_path] holds [file]. *)
Definition init (file : option Config) : t :=
  {| config := load_config file; file := file; writes := 0 |}.

Definition save_config (self : t) : t :=
  {| config := config self;
     file := Some (config self);
     writes := S (writes self) |}.

Definition get_all_devices (self : t) : list Device :=
  DEFAULT_DEVICES ++ custom_devices (config self).

Definition set_custom_devices (l : list Device) (c : Config) : Config :=
  {| last_url := last_url c;
     last_device_index := last_device_index c;
     last_frame_color := last_frame_color c;
     last_frame_border := last_frame_border c;
     last_scale := last_scale c;
     custom_devices := l |}.

Definition with_config (c : Config) (self : t) : t :=
  {| config := c; file := file self; writes := writes self |}.

Definition add_custom_device (self : t) (name : string)
    (width height radius : Z) : t :=
  let c := config self in
  save_config
    (with_config
       (set_custom_devices
          (custom_devices c ++ [mkDevice name width height radius]) c)
       self).

(** Python's [0 <= index < len(l)]. *)
Definition in_range (index : Z) (l : list Device) : bool :=
  (0 <=? index) && (index <? Z.of_nat (length l)).

Definition delete_custom_device (self : t) (index : Z) : t :=
  let c := config self in
  if in_range index (custom_devices c) then
    save_config
      (with_config
         (set_custom_devices (delete (Z.to_nat index) (custom_devices c)) c)
         self)
  else self.

Definition update_custom_device (self : t) (index : Z) (name : string)
    (width height radius : Z) : t :=
  let c := config self in
  if in_range index (custom_devices c) then
    save_config
      (with_config
         (set_custom_devices
            (<[Z.to_nat index := mkDevice name width height radius]>
               (custom_devices c)) c)
         self)
  else self.

End ConfigManager.

(** ** Handlers: state that survives a raised exception *)

Definition M (St A : Type) : Type := St -> result A * St.

Section HandlerMonad.
Context {St : Type}.

Definition ret {A : Type} (a : A) : M St A := fun s => (Ok a, s).

Definition bindM {A B : Type} (c : M St A) (k : A -> M St B) : M St B :=
  fun s =>
    match c s with
    | (Ok a, s') => k a s'
    | (Raise e, s') => (Raise e, s')
    end.

Definition get : M St St := fun s => (Ok s, s).

Definition modify (f : St -> St) : M St unit := fun s => (Ok tt, f s).

Definition lift {A : Type} (r : result A) : M St A := fun s => (r, s).

(** [try: c except ValueError: h]. *)
Definition try_except_ValueError (c h : M St unit) : M St unit :=
  fun s =>
    match c s with
    | (Raise ValueError, s') => h s'
    | r => r
    end.

(** A slot run by Qt's signal dispatch: an exception raised inside it is
    reported and does not reach the code that emitted the signal. *)
Definition slot (c : M St unit) : M St unit :=
  fun s => (Ok tt, snd (c s)).

Definition when (b : bool) (c : M St unit) : M St unit :=
  if b then c else ret tt.

End HandlerMonad.

#[global] Instance M_ret {St : Type} : MRet (M St) := @ret St.
#[global] Instance M_bind {St : Type} : MBind (M St) :=
  fun _ _ k c => bindM c k.

(** ** [PhoneSimulator] *)

Module PhoneSimulator.

(** What [update_phone_style], [update_island_pos] and
    [update_phone_copy_pos] hand to the widgets: [frame_size] goes to
    [phone_frame.setFixedSize], [screen_geometry] to
    [screen_widget.setGeometry], [island_size] and [island_pos] to the
    island's [setFixedSize] and [move], [copy_width] and [copy_pos] to the
    label's [setFixedWidth] and [move]. The status-bar text colour, which
    no geometry depends on, is left out. *)
Record PhoneStyle : Type := mkStyle {
  frame_size : Z * Z;
  screen_geometry : Z * Z * Z * Z;
  mask_rect : Z * Z * Z * Z;
  mask_radius : Z;
  shadow_blur : Z;
  shadow_y : Z;
  zoom : float;
  island_size : Z * Z;
  island_radius : Z;
  island_pos : Z * Z;
  copy_width : Z;
  copy_pos : Z * Z
}.

Definition bleed : Z := 1.

(** [int(n * scale)]. *)
Definition scaled (n : Z) (scale : float) : result Z :=
  PyFloat.int_mul n scale ≫= PyFloat.to_int.

(** The body of [update_phone_style] for the current device, with
    [update_island_pos] and [update_phone_copy_pos] inlined at its end.
    [last_scale] is a key of every dictionary here, so the default of
    [config.get] is never taken. [frame] is what [phone_frame.width()] and
    [phone_frame.height()] read after [setFixedSize], [size] the same for
    the overlay, whose [rect()] is what [paintEvent] starts from. *)
Definition phone_style (c : Config) (device : Device)
    (overlay : BezelOverlay.t) : result (BezelOverlay.t * PhoneStyle) :=
  let base := last_frame_color c in
  let border := last_frame_border c in
  let scale := last_scale c in
  scaled_w ← scaled (width device) scale;
  scaled_h ← scaled (height device) scale;
  radius ← scaled (radius device) scale;
  frame ← Qt.setFixedSize scaled_w scaled_h;
  size ← Qt.setFixedSize scaled_w scaled_h;
  let overlay :=
    BezelOverlay.mk (BezelOverlay.radius overlay) (BezelOverlay.scale overlay)
      (BezelOverlay.base_color overlay) (BezelOverlay.border_color overlay)
      (BezelOverlay.bezel_w overlay) size in
  overlay ← BezelOverlay.set_params overlay radius scale base border;
  let bw := BezelOverlay.bezel_w overlay in
  let m := bw - bleed in
  let w_inner := scaled_w - 2 * m in
  let h_inner := scaled_h - 2 * m in
  geometry ← Qt.setGeometry m m w_inner h_inner;
  blur ← scaled 40 scale;
  yoff ← scaled 15 scale;
  w ← scaled 120 scale;
  h ← scaled 28 scale;
  Qt.setFixedSize w h ;;
  top ← scaled 10 scale;
  pos ← Qt.move ((frame.1 - w) `div` 2) (bw + top);
  Ok (overlay,
      {| frame_size := (scaled_w, scaled_h);
        screen_geometry := geometry;
        mask_rect := (0, 0, w_inner, h_inner);
        mask_radius := radius - m;
        shadow_blur := blur;
        shadow_y := yoff;
        zoom := scale;
        island_size := (w, h);
        island_radius := h `div` 2;
        island_pos := pos;
        copy_width := frame.1;
        copy_pos := (0, frame.2 - 12) |}).

(** The keys of [frame_colors], which are also the items of the frame
    selector, in the order of the dictionary. *)
Inductive FrameKey : Type :=
| SteadyBlack
| LuxuryGold
| ElegantSilver
| SkyBlue
| PearlWhite.

Definition frame_colors (k : FrameKey) : string * string :=
  match k with
  | SteadyBlack => ("#111", "#444")
  | LuxuryGold => ("#d4af37", "#b8860b")
  | ElegantSilver => ("#e5e5e5", "#a3a3a3")
  | SkyBlue => ("#3498db", "#2980b9")
  | PearlWhite => ("#f0f0f0", "#ffffff")
  end.

(** The items of the scale selector. *)
Inductive ScaleItem : Type :=
| Percent (n : Z)
| Auto.

Definition scale_items : list ScaleItem :=
  [Percent 50; Percent 60; Percent 75; Percent 80; Percent 90; Percent 100; Auto].

(** The window with the widgets the handlers read and write.
    [frame_text] is [None] when the frame selector shows a text that is
    not a key of [frame_colors]; [style] is [None] until
    [update_phone_style] has run; [window_size] is the size last handed to
    [resize]; [warnings] counts the warning boxes shown. *)
Record t : Type := mk {
  config_manager : ConfigManager.t;
  device_index : Z;
  url_input : string;
  frame_text : option FrameKey;
  scale_text : ScaleItem;
  browser_url : option string;
  bezel_overlay : BezelOverlay.t;
  style : option PhoneStyle;
  window_size : Z * Z;
  warnings : nat
}.

Definition set_config_manager (f : ConfigManager.t -> ConfigManager.t) (s : t) : t :=
  mk (f (config_manager s)) (device_index s) (url_input s) (frame_text s)
     (scale_text s) (browser_url s) (bezel_overlay s) (style s)
     (window_size s) (warnings s).

Definition set_device_index (i : Z) (s : t) : t :=
  mk (config_manager s) i (url_input s) (frame_text s)
     (scale_text s) (browser_url s) (bezel_overlay s) (style s)
     (window_size s) (warnings s).

Definition set_browser_url (u : string) (s : t) : t :=
  mk (config_manager s) (device_index s) (url_input s) (frame_text s)
     (scale_text s) (Some u) (bezel_overlay s) (style s)
     (window_size s) (warnings s).

Definition set_style (ov : BezelOverlay.t) (st : PhoneStyle) (s : t) : t :=
  mk (config_manager s) (device_index s) (url_input s) (frame_text s)
     (scale_text s) (browser_url s) ov (Some st)
     (window_size s) (warnings s).

Definition set_window_size (wh : Z * Z) (s : t) : t :=
  mk (config_manager s) (device_index s) (url_input s) (frame_text s)
     (scale_text s) (browser_url s) (bezel_overlay s) (style s)
     wh (warnings s).

Definition set_frame_text (k : option FrameKey) (s : t) : t :=
  mk (config_manager s) (device_index s) (url_input s) k
     (scale_text s) (browser_url s) (bezel_overlay s) (style s)
     (window_size s) (warnings s).

Definition set_url_input (u : string) (s : t) : t :=
  mk (config_manager s) (device_index s) u (frame_text s)
     (scale_text s) (browser_url s) (bezel_overlay s) (style s)
     (window_size s) (warnings s).

Definition set_scale_text (i : ScaleItem) (s : t) : t :=
  mk (config_manager s) (device_index s) (url_input s) (frame_text s)
     i (browser_url s) (bezel_overlay s) (style s)
     (window_size s) (warnings s).

Definition warning (s : t) : t :=
  mk (config_manager s) (device_index s) (url_input s) (frame_text s)
     (scale_text s) (browser_url s) (bezel_overlay s) (style s)
     (window_size s) (S (warnings s)).

Definition set_config (f : Config -> Config) : t -> t :=
  set_config_manager
    (fun cm => ConfigManager.with_config (f (ConfigManager.config cm)) cm).

Definition config (s : t) : Config := ConfigManager.config (config_manager s).

(** [l[i]] on a Python list. *)
Definition getitem {A : Type} (l : list A) (i : Z) : result A :=
  let j := if i <? 0 then i + Z.of_nat (length l) else i in
  if j <? 0 then Raise IndexError
  else match l !! Z.to_nat j with
       | Some a => Ok a
       | None => Raise IndexError
       end.

Definition get_current_device : M t Device :=
  s ← get;
  let idx := device_index s in
  let devices := ConfigManager.get_all_devices (config_manager s) in
  lift (if 0 <=? idx then getitem devices idx else getitem devices 0).

(** [style] is replaced once the whole body has run. A call that raises
    part-way leaves [style] as it was; the widgets set before the raising
    line are not tracked. *)
Definition update_phone_style : M t unit :=
  s ← get;
  device ← get_current_device;
  r ← lift (phone_style (config s) device (bezel_overlay s));
  modify (set_style r.1 r.2).

Definition adjust_window_size : M t unit :=
  s ← get;
  device ← get_current_device;
  let scale := last_scale (config s) in
  scaled_w ← lift (scaled (width device) scale);
  scaled_h ← lift (scaled (height device) scale);
  let w := Z.max 600 (scaled_w + 100) in
  let h := Z.max 500 (scaled_h + 150) in
  size ← lift (Qt.resize w h);
  modify (set_window_size size).

Definition on_device_changed : M t unit :=
  update_phone_style ;; adjust_window_size.

Definition set_frame (base border : string) (c : Config) : Config :=
  {| last_url := last_url c;
     last_device_index := last_device_index c;
     last_frame_color := base;
     last_frame_border := border;
     last_scale := last_scale c;
     custom_devices := custom_devices c |}.

Definition on_frame_changed : M t unit :=
  s ← get;
  match frame_text s with
  | Some text =>
      let '(base, border) := frame_colors text in
      modify (set_config (set_frame base border)) ;;
      update_phone_style
  | None => ret tt
  end.

Definition set_scale (val : float) (c : Config) : Config :=
  {| last_url := last_url c;
     last_device_index := last_device_index c;
     last_frame_color := last_frame_color c;
     last_frame_border := last_frame_border c;
     last_scale := val;
     custom_devices := custom_devices c |}.

Definition on_scale_changed : M t unit :=
  s ← get;
  val ← lift (match scale_text s with
              | Auto => Ok (PyFloat.literal 75 100)
              | Percent n => PyFloat.int_truediv n (PyFloat.literal 100 1)
              end);
  modify (set_config (set_scale val)) ;;
  modify (set_config_manager ConfigManager.save_config) ;;
  update_phone_style ;;
  adjust_window_size.

Definition set_url (url : string) (c : Config) : Config :=
  {| last_url := url;
     last_device_index := last_device_index c;
     last_frame_color := last_frame_color c;
     last_frame_border := last_frame_border c;
     last_scale := last_scale c;
     custom_devices := custom_devices c |}.

Definition load_url : M t unit :=
  s ← get;
  let url := url_input s in
  let url := if String.prefix "http" url then url else "http://" +:+ url in
  modify (set_browser_url url) ;;
  modify (set_config (set_url url)) ;;
  modify (set_config_manager ConfigManager.save_config).

(** [device_combo.clear()] followed by one [addItem] per device: the
    current index drops to -1 and then settles on the first item, and
    each change runs the slot [on_device_changed]. *)
Definition refresh_device_list : M t unit :=
  modify (set_device_index (-1)) ;;
  slot on_device_changed ;;
  modify (set_device_index 0) ;;
  slot on_device_changed.

Definition device_count (s : t) : Z :=
  Z.of_nat (length (ConfigManager.get_all_devices (config_manager s))).

Definition setCurrentIndex (i : Z) : M t unit :=
  s ← get;
  if Z.eqb i (device_index s) then ret tt
  else modify (set_device_index i) ;; slot on_device_changed.

Section Dialogs.
(** [int(text)] on the text of a line edit. *)
Variable int_of_text : string -> result Z.

(** [accepted] tells whether the dialog was closed through its button;
    the four strings are the texts of its line edits. *)
Definition show_add_device_dialog (accepted : bool)
    (name_edit width_edit height_edit radius_edit : string) : M t unit :=
  when accepted
    (let name := name_edit in
     try_except_ValueError
       (w ← lift (int_of_text width_edit);
        h ← lift (int_of_text height_edit);
        r ← lift (int_of_text radius_edit);
        modify (set_config_manager
                  (fun cm => ConfigManager.add_custom_device cm name w h r)) ;;
        refresh_device_list ;;
        s ← get;
        setCurrentIndex (device_count s - 1))
       (modify warning)).

(** Re-opening the management dialog only builds widgets. *)
Definition show_manage_devices_dialog : M t unit := ret tt.

Definition show_edit_device_dialog (index : Z) (accepted : bool)
    (name_edit width_edit height_edit radius_edit : string) : M t unit :=
  s ← get;
  device ← lift (getitem (custom_devices (config s)) index);
  when accepted
    (try_except_ValueError
       (let name := name_edit in
        w ← lift (int_of_text width_edit);
        h ← lift (int_of_text height_edit);
        r ← lift (int_of_text radius_edit);
        modify (set_config_manager
                  (fun cm => ConfigManager.update_custom_device cm index name w h r)) ;;
        refresh_device_list ;;
        show_manage_devices_dialog)
       (modify warning)).

(** [confirmed] tells whether the question box was answered Yes. *)
Definition delete_device (idx : Z) (confirmed : bool) : M t unit :=
  when confirmed
    (modify (set_config_manager
               (fun cm => ConfigManager.delete_custom_device cm idx)) ;;
     refresh_device_list ;;
     show_manage_devices_dialog).

End Dialogs.

(** The window when [init_ui] has built and filled the selectors over a
    file system holding [file]: each selector stands on its first item
    and the URL field holds [last_url]. No signal is connected while the
    selectors are filled, so no handler has run. *)
Definition constructed (file : option Config) : t :=
  {| config_manager := ConfigManager.init file;
     device_index := 0;
     url_input := last_url (ConfigManager.load_config file);
     frame_text := Some SteadyBlack;
     scale_text := Percent 50;
     browser_url := None;
     bezel_overlay := BezelOverlay.init;
     style := None;
     window_size := (0, 0);
     warnings := 0 |}.

(** [setCurrentText(f"{int(last_scale*100)}%")] on the filled scale
    selector: the item with that text becomes current when there is one,
    otherwise the first item stays. *)
Definition scale_selector_at_start (last_scale : float) : result ScaleItem :=
  f100 ← PyFloat.of_int 100;
  n ← PyFloat.to_int (PyFloat.mul last_scale f100);
  Ok (if existsb
           (fun item =>
              match item with
              | Percent k => Z.eqb k n
              | Auto => false
              end) scale_items
      then Percent n
      else Percent 50).

Definition select_last_scale : M t unit :=
  s ← get;
  item ← lift (scale_selector_at_start (last_scale (config s)));
  modify (set_scale_text item).

Definition apply_config : M t unit :=
  s ← get;
  let idx := last_device_index (config s) in
  when ((0 <=? idx) && (idx <? device_count s)) (setCurrentIndex idx) ;;
  load_url.

(** [__init__]: [init_ui] selects the stored scale, [setup_phone_frame]
    lays the phone out for the first device, [apply_config] selects
    [last_device_index] when it is an index of the device selector and
    loads the page, and [apply_initial_layout] sizes the window. An
    exception ends the sequence where it is raised. *)
Definition startup (file : option Config) : t :=
  ((select_last_scale ;; update_phone_style ;; apply_config ;;
    adjust_window_size) (constructed file)).2.

(** The running simulator after a start without configuration file. *)
Definition running : t := Eval vm_compute in startup None.

End PhoneSimulator.

(** ** [int(text)]

    Optional surrounding white space, an optional sign, then decimal digits
    that single underscores may separate. A [string] stands for the text
    whose code points are its characters, all below 256: among these the
    white space [int] strips is tab to carriage return, the space, U+0085
    and U+00A0, and the decimal digits are 0 to 9. The interpreter's
    limit on the number of digits is not modelled. *)

Module PyInt.

Definition is_space (c : ascii) : bool :=
  let n := N_of_ascii c in
  ((9 <=? n) && (n <=? 13) || (n =? 32) || (n =? 133) || (n =? 160))%N.

Definition is_digit (c : ascii) : bool :=
  let n := N_of_ascii c in ((48 <=? n) && (n <=? 57))%N.

Definition digit_value (c : ascii) : Z := Z.of_N (N_of_ascii c) - 48.

Fixpoint lstrip (l : list ascii) : list ascii :=
  match l with
  | c :: l' => if is_space c then lstrip l' else l
  | [] => []
  end.

Definition strip (l : list ascii) : list ascii :=
  rev (lstrip (rev (lstrip l))).

(** [after_digit] tells whether the previous character was a digit. *)
Fixpoint digits (acc : Z) (after_digit : bool) (l : list ascii) : option Z :=
  match l with
  | [] => if after_digit then Some acc else None
  | c :: l' =>
      if is_digit c then digits (10 * acc + digit_value c) true l'
      else if Ascii.eqb c "_" && after_digit then
        match l' with
        | [] => None
        | _ => digits acc false l'
        end
      else None
  end.

Definition of_string (text : string) : result Z :=
  let l := strip (list_ascii_of_string text) in
  let '(neg, body) :=
    match l with
    | c :: l' =>
        if Ascii.eqb c "-" then (true, l')
        else if Ascii.eqb c "+" then (false, l')
        else (false, l)
    | [] => (false, [])
    end in
  match digits 0 false body with
  | Some n => Ok (if neg then - n else n)
  | None => Raise ValueError
  end.

End PyInt.

(** ** More of [main.py]: the whole window

    The shadow line of [paintEvent], the window chrome with immersion and
    pointer drag, and the user's actions as one step function. *)

Module Window.

(** [inner_shadow_rect] of [paintEvent] with the corner radius of the path
    drawn around it. *)
Definition inner_shadow (self : BezelOverlay.t) : Z * Z * Z * Z * Z :=
  let hole := BezelOverlay.paintEvent self in
  (BezelOverlay.adjusted (BezelOverlay.inner_rect hole) (-1) (-1) 1 1,
   BezelOverlay.inner_r hole + 1).

(** The value [on_scale_changed] stores for an item of the selector. *)
Definition scale_of_item (item : PhoneSimulator.ScaleItem) : result float :=
  match item with
  | PhoneSimulator.Auto => Ok (PyFloat.literal 75 100)
  | PhoneSimulator.Percent n => PyFloat.int_truediv n (PyFloat.literal 100 1)
  end.

(** The main window: the simulator's widgets, the immersion flag with the
    visibility of the control panel and of the copyright label, the pointer
    position remembered while dragging, and the window's position. *)
Record t : Type := mk {
  sim : PhoneSimulator.t;
  is_immersion : bool;
  control_panel_visible : bool;
  copy_label_visible : bool;
  old_pos : option (Z * Z);
  pos : Z * Z
}.

Definition lift_sim {A : Type} (c : M PhoneSimulator.t A) : M t A :=
  fun w =>
    let r := c (sim w) in
    (r.1, mk r.2 (is_immersion w) (control_panel_visible w)
            (copy_label_visible w) (old_pos w) (pos w)).

Definition set_immersion (b : bool) (w : t) : t :=
  mk (sim w) b (control_panel_visible w) (copy_label_visible w) (old_pos w) (pos w).

Definition set_chrome_visible (b : bool) (w : t) : t :=
  mk (sim w) (is_immersion w) b b (old_pos w) (pos w).

Definition set_old_pos (p : option (Z * Z)) (w : t) : t :=
  mk (sim w) (is_immersion w) (control_panel_visible w) (copy_label_visible w) p (pos w).

Definition move (p : Z * Z) (w : t) : t :=
  mk (sim w) (is_immersion w) (control_panel_visible w) (copy_label_visible w)
     (old_pos w) p.

Definition toggle_immersion : M t unit :=
  w ← get;
  modify (set_immersion (negb (is_immersion w))) ;;
  w ← get;
  modify (set_chrome_visible (negb (is_immersion w))) ;;
  lift_sim PhoneSimulator.adjust_window_size.

Definition on_esc_pressed : M t unit :=
  w ← get;
  modify (set_immersion (negb (is_immersion w))) ;;
  w ← get;
  modify (set_chrome_visible (negb (is_immersion w))) ;;
  lift_sim PhoneSimulator.adjust_window_size.

Inductive MouseButton : Type :=
| LeftButton
| RightButton
| MiddleButton.

Definition mousePressEvent (button : MouseButton) (globalPos : Z * Z) (w : t) : t :=
  match button with
  | LeftButton => set_old_pos (Some globalPos) w
  | _ => w
  end.

Definition mouseMoveEvent (globalPos : Z * Z) (w : t) : t :=
  match old_pos w with
  | Some old =>
      let delta := (globalPos.1 - old.1, globalPos.2 - old.2) in
      set_old_pos (Some globalPos)
        (move ((pos w).1 + delta.1, (pos w).2 + delta.2) w)
  | None => w
  end.

Definition mouseReleaseEvent (w : t) : t := set_old_pos None w.

(** [screen] is the size of the primary screen. *)
Definition center_on_screen (screen : Z * Z) (w : t) : t :=
  let size := PhoneSimulator.window_size (sim w) in
  move ((screen.1 - size.1) `div` 2, (screen.2 - size.2) `div` 2) w.

(** What the user can do in the window; each action runs as a slot. *)
Inductive Action : Type :=
| SelectDevice (i : Z)
| SelectFrame (k : PhoneSimulator.FrameKey)
| SelectScale (item : PhoneSimulator.ScaleItem)
| TypeUrl (url : string)
| Connect
| AddDevice (accepted : bool) (name width height radius : string)
| EditDevice (index : Z) (accepted : bool) (name width height radius : string)
| DeleteDevice (index : Z) (confirmed : bool).

Section Session.
Variable int_of_text : string -> result Z.

Definition handler (a : Action) : M PhoneSimulator.t unit :=
  match a with
  | SelectDevice i => PhoneSimulator.setCurrentIndex i
  | SelectFrame k =>
      modify (PhoneSimulator.set_frame_text (Some k)) ;;
      PhoneSimulator.on_frame_changed
  | SelectScale item =>
      modify (PhoneSimulator.set_scale_text item) ;;
      PhoneSimulator.on_scale_changed
  | TypeUrl url => modify (PhoneSimulator.set_url_input url)
  | Connect => PhoneSimulator.load_url
  | AddDevice accepted name width height radius =>
      PhoneSimulator.show_add_device_dialog int_of_text accepted name width
        height radius
  | EditDevice index accepted name width height radius =>
      PhoneSimulator.show_edit_device_dialog int_of_text index accepted name
        width height radius
  | DeleteDevice index confirmed =>
      PhoneSimulator.delete_device index confirmed
  end.

Definition step (a : Action) (s : PhoneSimulator.t) : PhoneSimulator.t :=
  (slot (handler a) s).2.

Definition run (l : list Action) (s : PhoneSimulator.t) : PhoneSimulator.t :=
  foldl (fun s a => step a s) s l.

End Session.

(** The file holds the dictionary, but for the two frame colours. *)
Definition saved_up_to_frame (s : PhoneSimulator.t) : Prop :=
  exists fc,
    ConfigManager.file (PhoneSimulator.config_manager s) = Some fc /\
    PhoneSimulator.config s =
    PhoneSimulator.set_frame (last_frame_color (PhoneSimulator.config s))
      (last_frame_border (PhoneSimulator.config s)) fc.

(** What an action can do to the manager: nothing, change the two frame
    colours in memory, or store a dictionary and save it. *)
Inductive manager_step (cm cm' : ConfigManager.t) : Prop :=
| ms_same : cm' = cm -> manager_step cm cm'
| ms_frame (base border : string) :
    cm' = ConfigManager.with_config
            (PhoneSimulator.set_frame base border (ConfigManager.config cm)) cm ->
    manager_step cm cm'
| ms_saved (c' : Config) :
    cm' = ConfigManager.save_config (ConfigManager.with_config c' cm) ->
    last_device_index c' = last_device_index (ConfigManager.config cm) ->
    last_frame_color c' = last_frame_color (ConfigManager.config cm) ->
    last_frame_border c' = last_frame_border (ConfigManager.config cm) ->
    last_url c' = last_url (ConfigManager.config cm) \/
      String.prefix "http" (last_url c') = true ->
    manager_step cm cm'.

End Window.

(** * Properties of the float operations *)

Section FloatProperties.

Lemma digits2_pos_size (m : positive) : digits2_pos m = Pos.size m.
Proof. induction m; simpl; congruence. Qed.

Lemma digits2_pos_gt (m : positive) : Zpos m < 2 ^ Zpos (digits2_pos m).
Proof.
  rewrite digits2_pos_size.
  pose proof (Pos.size_gt m) as H.
  apply Pos2Z.pos_lt_pos in H. rewrite Pos2Z.inj_pow in H. exact H.
Qed.

Lemma digits2_pos_le (m : positive) (k : Z) :
  Zpos m < 2 ^ k -> Zpos (digits2_pos m) <= k.
Proof.
  intros H. rewrite digits2_pos_size.
  destruct (Z.le_gt_cases (Zpos (Pos.size m)) k) as [L|G]; [exact L|exfalso].
  pose proof (Pos.size_le m) as S.
  apply Pos2Z.pos_le_pos in S. rewrite Pos2Z.inj_pow in S.
  assert (K : 0 <= k).
  { destruct (Z.le_gt_cases 0 k) as [K|K]; [exact K|].
    rewrite Z.pow_neg_r in H by lia. lia. }
  assert (P : 2 ^ (k + 1) <= 2 ^ Zpos (Pos.size m))
    by (apply Z.pow_le_mono_r; lia).
  rewrite Z.pow_add_r in P by lia. change (2 ^ 1) with 2 in P.
  change (Zpos m~0) with (2 * Zpos m) in S. lia.
Qed.

Lemma shr_1_m (r : shr_record) :
  0 <= shr_m r -> shr_m (shr_1 r) = shr_m r / 2.
Proof.
  destruct r as [m r s]. simpl. intros H.
  destruct m as [|[p|p|]|p]; simpl; try reflexivity; try lia.
  - rewrite Pos2Z.inj_xI. apply Z.div_unique_pos with 1; lia.
  - rewrite Pos2Z.inj_xO. apply Z.div_unique_pos with 0; lia.
Qed.

Lemma iter_pos_shr_1_m (p : positive) : forall r : shr_record,
  0 <= shr_m r -> shr_m (SpecFloat.iter_pos shr_1 p r) = shr_m r / 2 ^ Zpos p.
Proof.
  induction p as [p IH|p IH|]; intros r H; cbn [SpecFloat.iter_pos].
  - assert (H1 : 0 <= shr_m (shr_1 r)) by (rewrite shr_1_m by exact H; apply Z.div_pos; lia).
    assert (H2 : 0 <= shr_m (SpecFloat.iter_pos shr_1 p (shr_1 r)))
      by (rewrite IH by exact H1; apply Z.div_pos; [exact H1|apply Z.pow_pos_nonneg; lia]).
    rewrite IH by exact H2. rewrite IH by exact H1. rewrite shr_1_m by exact H.
    rewrite !Z.div_div by (try apply Z.pow_pos_nonneg; lia).
    f_equal. rewrite <- Z.pow_add_r, <- Z.pow_succ_r by lia. f_equal. lia.
  - assert (H2 : 0 <= shr_m (SpecFloat.iter_pos shr_1 p r))
      by (rewrite IH by exact H; apply Z.div_pos; [exact H|apply Z.pow_pos_nonneg; lia]).
    rewrite IH by exact H2. rewrite IH by exact H.
    rewrite !Z.div_div by (try apply Z.pow_pos_nonneg; lia).
    f_equal. rewrite <- Z.pow_add_r by lia. f_equal. lia.
  - rewrite shr_1_m by exact H. reflexivity.
Qed.

Lemma Zdigits2_nonneg (m : Z) : 0 <= Zdigits2 m.
Proof. destruct m; simpl; lia. Qed.

Lemma Zdigits2_gt (m : Z) : 0 <= m -> m < 2 ^ Zdigits2 m.
Proof.
  destruct m as [|p|p]; simpl; intros H; [lia| |lia].
  apply digits2_pos_gt.
Qed.

Lemma Zdigits2_le (m k : Z) : 0 <= m -> 0 <= k -> m < 2 ^ k -> Zdigits2 m <= k.
Proof.
  destruct m as [|p|p]; simpl; intros H K L; [lia| |lia].
  apply digits2_pos_le. exact L.
Qed.

Lemma Zdigits2_div (m s : Z) :
  0 <= m -> 0 <= s -> Zdigits2 (m / 2 ^ s) <= Z.max 0 (Zdigits2 m - s).
Proof.
  intros Hm Hs.
  pose proof (Zdigits2_gt m Hm) as G.
  pose proof (Zdigits2_nonneg m) as N.
  assert (P : 0 < 2 ^ s) by (apply Z.pow_pos_nonneg; lia).
  assert (Q : 0 <= m / 2 ^ s) by (apply Z.div_pos; lia).
  destruct (Z.le_gt_cases s (Zdigits2 m)) as [L|L].
  - rewrite Z.max_r by lia. apply Zdigits2_le; [exact Q|lia|].
    apply Z.div_lt_upper_bound; [exact P|].
    rewrite <- Z.pow_add_r by lia. replace (s + (Zdigits2 m - s)) with (Zdigits2 m) by lia.
    exact G.
  - rewrite Z.div_small; [simpl; lia|]. split; [exact Hm|].
    apply Z.lt_le_trans with (1 := G). apply Z.pow_le_mono_r; lia.
Qed.

Lemma Zdigits2_succ (m : Z) : 0 <= m -> Zdigits2 (m + 1) <= Zdigits2 m + 1.
Proof.
  intros Hm. pose proof (Zdigits2_gt m Hm) as G.
  pose proof (Zdigits2_nonneg m) as N.
  apply Zdigits2_le; [lia|lia|].
  rewrite Z.pow_add_r by lia. change (2 ^ 1) with 2. lia.
Qed.

Lemma Zdigits2_mono (a b : Z) : 0 <= a <= b -> Zdigits2 a <= Zdigits2 b.
Proof.
  intros H. apply Zdigits2_le; [lia|apply Zdigits2_nonneg|].
  pose proof (Zdigits2_gt b). lia.
Qed.

Lemma shr_m_of_loc (m : Z) (l : location) : shr_m (shr_record_of_loc m l) = m.
Proof. destruct l as [|[]]; reflexivity. Qed.

Lemma shr_spec (m : Z) (l : location) (e n : Z) :
  0 <= m ->
  shr_m (fst (shr (shr_record_of_loc m l) e n)) = m / 2 ^ Z.max 0 n /\
  snd (shr (shr_record_of_loc m l) e n) = e + Z.max 0 n.
Proof.
  intros H. destruct n as [|p|p]; simpl.
  - rewrite shr_m_of_loc, Z.div_1_r. lia.
  - rewrite iter_pos_shr_1_m by (rewrite shr_m_of_loc; exact H).
    rewrite shr_m_of_loc. split; [reflexivity|lia].
  - rewrite shr_m_of_loc, Z.div_1_r. lia.
Qed.

Lemma round_nearest_even_bounds (m : Z) (l : location) :
  m <= round_nearest_even m l <= m + 1.
Proof. destruct l as [|[]]; simpl; try destruct (Z.even m); lia. Qed.

Lemma binary_round_aux_magnitude (sx : bool) (mx : positive) (ex k : Z) :
  Zpos (digits2_pos mx) + ex <= k -> -1074 <= k -> k <= 972 ->
  PyFloat.magnitude_below (k + 1) (binary_round_aux 53 1024 sx (Zpos mx) ex loc_Exact) = true.
Proof.
  intros D Klo Khi. unfold binary_round_aux, shr_fexp.
  set (d := Zdigits2 (Zpos mx)). assert (Hd : d = Zpos (digits2_pos mx)) by reflexivity.
  set (n1 := fexp 53 1024 (d + ex) - ex).
  pose proof (shr_spec (Zpos mx) loc_Exact ex n1 ltac:(lia)) as [M1 E1].
  destruct (shr (shr_record_of_loc (Zpos mx) loc_Exact) ex n1) as [mrs1 e1].
  simpl in M1, E1.
  set (m1 := round_nearest_even (shr_m mrs1) (loc_of_shr_record mrs1)).
  pose proof (round_nearest_even_bounds (shr_m mrs1) (loc_of_shr_record mrs1)) as R.
  fold m1 in R.
  assert (P1 : 0 <= shr_m mrs1)
    by (rewrite M1; apply Z.div_pos; [lia|apply Z.pow_pos_nonneg; lia]).
  set (n2 := fexp 53 1024 (Zdigits2 m1 + e1) - e1).
  pose proof (shr_spec m1 loc_Exact e1 n2 ltac:(lia)) as [M2 E2].
  destruct (shr (shr_record_of_loc m1 loc_Exact) e1 n2) as [mrs2 e2].
  simpl in M2, E2.
  assert (D1 : Zdigits2 (shr_m mrs1) <= Z.max 0 (d - Z.max 0 n1))
    by (rewrite M1; apply Zdigits2_div; lia).
  assert (Dm1 : Zdigits2 m1 <= Zdigits2 (shr_m mrs1) + 1).
  { apply Z.le_trans with (Zdigits2 (shr_m mrs1 + 1)).
    - apply Zdigits2_mono. lia.
    - apply Zdigits2_succ. exact P1. }
  assert (D2 : Zdigits2 (shr_m mrs2) <= Z.max 0 (Zdigits2 m1 - Z.max 0 n2))
    by (rewrite M2; apply Zdigits2_div; lia).
  assert (P2 : 0 <= shr_m mrs2)
    by (rewrite M2; apply Z.div_pos; [lia|apply Z.pow_pos_nonneg; lia]).
  unfold fexp, emin in n1, n2.
  destruct (shr_m mrs2) as [|q|q] eqn:Eq; [reflexivity| |exfalso; clear -P2].
  2: lia.
  change (Zdigits2 (Zpos q)) with (Zpos (digits2_pos q)) in D2.
  change IntDef.Z.max with Z.max in *. subst n1 n2.
  clearbody d m1. clear M1 M2 Eq R P1 P2.
  assert (F : e2 <= 1024 - 53) by lia.
  apply Z.leb_le in F. rewrite F. cbn [PyFloat.magnitude_below]. apply Z.leb_le. lia.
Qed.

Lemma iter_xO_value (m d : positive) :
  Zpos (Pos.iter xO m d) = Zpos m * 2 ^ Zpos d.
Proof.
  induction d as [|d IH] using Pos.peano_ind.
  - simpl. lia.
  - rewrite Pos.iter_succ, Pos2Z.inj_xO, IH, Pos2Z.inj_succ.
    rewrite Z.pow_succ_r by lia. ring.
Qed.

Lemma magnitude_below_mono (k k' : Z) (x : float) :
  k <= k' -> PyFloat.magnitude_below k x = true ->
  PyFloat.magnitude_below k' x = true.
Proof.
  intros L. destruct x as [| | |s m e]; simpl; try easy.
  rewrite !Z.leb_le. lia.
Qed.

Lemma binary_round_magnitude (sx : bool) (mx : positive) (ex k : Z) :
  Zpos (digits2_pos mx) + ex <= k -> -1074 <= k -> k <= 972 ->
  PyFloat.magnitude_below (k + 1) (binary_round 53 1024 sx mx ex) = true.
Proof.
  intros D Klo Khi. unfold binary_round, shl_align.
  destruct (fexp 53 1024 (Zpos (digits2_pos mx) + ex) - ex) as [|d|d] eqn:E;
    try (apply binary_round_aux_magnitude; assumption).
  apply binary_round_aux_magnitude; [|assumption..].
  assert (L : Zpos (digits2_pos (Pos.iter xO mx d)) <= Zpos (digits2_pos mx) + Zpos d).
  { apply digits2_pos_le. rewrite iter_xO_value, Z.pow_add_r by lia.
    apply Z.mul_lt_mono_pos_r; [apply Z.pow_pos_nonneg; lia|].
    apply digits2_pos_gt. }
  lia.
Qed.

(** An int below [2^k] in absolute value converts to a float below
    [2^(k+1)]. *)
Lemma of_int_magnitude (n k : Z) :
  Z.abs n < 2 ^ k -> 0 <= k <= 972 ->
  exists x, PyFloat.of_int n = Ok x /\ PyFloat.magnitude_below (k + 1) x = true.
Proof.
  intros N K. unfold PyFloat.of_int, binary_normalize.
  destruct n as [|m|m].
  - exists (S754_zero false). split; reflexivity.
  - pose proof (binary_round_magnitude false m 0 k) as B.
    assert (D : Zpos (digits2_pos m) + 0 <= k)
      by (pose proof (digits2_pos_le m k N); lia).
    specialize (B D ltac:(lia) ltac:(lia)). change PyFloat.prec with 53.
    change PyFloat.emax with 1024.
    destruct (binary_round 53 1024 false m 0) as [| | |s m' e'] eqn:E;
      try discriminate; eexists; split; try reflexivity; exact B.
  - pose proof (binary_round_magnitude true m 0 k) as B.
    assert (D : Zpos (digits2_pos m) + 0 <= k)
      by (pose proof (digits2_pos_le m k N); lia).
    specialize (B D ltac:(lia) ltac:(lia)). change PyFloat.prec with 53.
    change PyFloat.emax with 1024.
    destruct (binary_round 53 1024 true m 0) as [| | |s m' e'] eqn:E;
      try discriminate; eexists; split; try reflexivity; exact B.
Qed.

(** The product of a float below [2^a] and one below [2^b] is finite and
    below [2^(a+b+1)], as long as that stays in range. *)
Lemma mul_magnitude (x y : float) (a b : Z) :
  PyFloat.magnitude_below a x = true -> PyFloat.magnitude_below b y = true ->
  -1074 <= a + b -> a + b <= 972 ->
  PyFloat.magnitude_below (a + b + 1) (PyFloat.mul x y) = true.
Proof.
  intros X Y Lo Hi. unfold PyFloat.mul.
  destruct x as [sx|sx| |sx mx ex], y as [sy|sy| |sy my ey];
    try discriminate; try reflexivity.
  simpl in X, Y. apply Z.leb_le in X, Y.
  change (SFmul PyFloat.prec PyFloat.emax (S754_finite sx mx ex) (S754_finite sy my ey))
    with (binary_round_aux 53 1024 (xorb sx sy) (Zpos (mx * my)) (ex + ey) loc_Exact).
  apply binary_round_aux_magnitude; [|assumption..].
  assert (L : Zpos (digits2_pos (mx * my)) <=
              Zpos (digits2_pos mx) + Zpos (digits2_pos my)).
  { apply digits2_pos_le. rewrite Pos2Z.inj_mul, Z.pow_add_r by lia.
    pose proof (digits2_pos_gt mx). pose proof (digits2_pos_gt my).
    apply Z.mul_lt_mono_nonneg; lia. }
  lia.
Qed.

Lemma to_int_defined (k : Z) (x : float) :
  PyFloat.magnitude_below k x = true -> exists t, PyFloat.to_int x = Ok t.
Proof. destruct x; try discriminate; intros _; eexists; reflexivity. Qed.

(** [int(x)] drops the fractional part of [x]. *)
Lemma to_int_truncates (x : float) (t : Z) :
  PyFloat.to_int x = Ok t -> PyFloat.truncation_of t x.
Proof.
  unfold PyFloat.truncation_of.
  destruct x as [s|s| |s m e]; try discriminate; intros [= <-].
  - split; [reflexivity|]. unfold Qle, Qlt; simpl. lia.
  - split; [reflexivity|]. destruct e as [|k|k].
    + cbn [PyFloat.to_Q]. rewrite Z.shiftl_0_r, Z.pow_0_r, Z.mul_1_r.
      unfold Qle, Qlt; simpl. lia.
    + cbn [PyFloat.to_Q]. rewrite Z.shiftl_mul_pow2 by lia.
      unfold Qle, Qlt; simpl. lia.
    + cbn [PyFloat.to_Q].
      change (Z.shiftl (Zpos m) (Zneg k)) with (Z.shiftr (Zpos m) (Zpos k)).
      rewrite Z.shiftr_div_pow2 by lia.
      assert (P : 0 < 2 ^ Zpos k) by (apply Z.pow_pos_nonneg; lia).
      pose proof (Z.mul_div_le (Zpos m) (2 ^ Zpos k) P) as L.
      pose proof (Z.mul_succ_div_gt (Zpos m) (2 ^ Zpos k) P) as G.
      set (q := Zpos m / 2 ^ Zpos k) in *.
      unfold Qle, Qlt, Qminus, Qplus, Qopp, inject_Z; cbn [Qnum Qden].
      rewrite Pos2Z.inj_pow. change (Zpos 2) with 2.
      destruct s; cbn [cond_Zopp]; nia.
Qed.

End FloatProperties.

(** * Properties of the device-profile store *)

Section StoreProperties.
Import ConfigManager.

Lemma in_range_spec (index : Z) (l : list Device) :
  in_range index l = true <-> 0 <= index < Z.of_nat (length l).
Proof. unfold in_range. rewrite andb_true_iff, Z.leb_le, Z.ltb_lt. tauto. Qed.

Lemma in_range_false (index : Z) (l : list Device) :
  index < 0 \/ Z.of_nat (length l) <= index -> in_range index l = false.
Proof.
  intros H. destruct (in_range index l) eqn:E; [|reflexivity].
  apply in_range_spec in E. lia.
Qed.

Lemma custom_devices_add (self : t) (name : string) (w h r : Z) :
  custom_devices (config (add_custom_device self name w h r)) =
  custom_devices (config self) ++ [mkDevice name w h r].
Proof. reflexivity. Qed.

(** C7: [get_all_devices] is the built-in list followed by the custom list,
    in that order; [add_custom_device] puts the new profile at the very end
    of it and makes it exactly one element longer. *)
Theorem get_all_devices_add (self : t) (name : string) (w h r : Z) :
  get_all_devices self = DEFAULT_DEVICES ++ custom_devices (config self) /\
  get_all_devices (add_custom_device self name w h r) =
    get_all_devices self ++ [mkDevice name w h r] /\
  last (get_all_devices (add_custom_device self name w h r)) =
    Some (mkDevice name w h r) /\
  length (get_all_devices (add_custom_device self name w h r)) =
    S (length (get_all_devices self)).
Proof.
  assert (E : get_all_devices (add_custom_device self name w h r) =
              get_all_devices self ++ [mkDevice name w h r]).
  { unfold get_all_devices. rewrite custom_devices_add. apply app_assoc. }
  split; [reflexivity|]. split; [exact E|]. split.
  - rewrite E. apply last_snoc.
  - rewrite E, length_app. simpl. lia.
Qed.

(** C8: with an index outside the custom list, negative ones included,
    [update_custom_device] and [delete_custom_device] return the manager as
    it was: same dictionary, same file, no further write. *)
Theorem out_of_range_is_noop (self : t) (index : Z) (name : string) (w h r : Z) :
  index < 0 \/ Z.of_nat (length (custom_devices (config self))) <= index ->
  update_custom_device self index name w h r = self /\
  delete_custom_device self index = self.
Proof.
  intros H. unfold update_custom_device, delete_custom_device.
  rewrite (in_range_false _ _ H). split; reflexivity.
Qed.

Lemma out_of_range_is_noop_witness :
  let self := add_custom_device (init None) "Test" 300 600 20 in
  (update_custom_device self (-1) "X" 1 1 1 = self /\
   delete_custom_device self (-1) = self) /\
  (update_custom_device self 1 "X" 1 1 1 = self /\
   delete_custom_device self 1 = self).
Proof.
  split.
  - apply (out_of_range_is_noop _ (-1)). left. lia.
  - apply (out_of_range_is_noop _ 1). right. simpl. lia.
Defined.

Lemma custom_devices_delete (self : t) (index : Z) :
  0 <= index < Z.of_nat (length (custom_devices (config self))) ->
  custom_devices (config (delete_custom_device self index)) =
  delete (Z.to_nat index) (custom_devices (config self)).
Proof.
  intros H. unfold delete_custom_device.
  rewrite (proj2 (in_range_spec _ _) H). reflexivity.
Qed.

(** C9: with an index inside the custom list, [delete_custom_device]
    removes the profile at that index and nothing else: the combined list
    keeps every element before it (all built-ins among them) in place, and
    every element after it moves up by one; with the last index the custom
    list loses exactly its last profile. *)
Theorem delete_removes_exactly_one (self : t) (index : Z) :
  0 <= index < Z.of_nat (length (custom_devices (config self))) ->
  let custom := custom_devices (config self) in
  let self' := delete_custom_device self index in
  let i := Z.to_nat index in
  let n := length DEFAULT_DEVICES in
  custom_devices (config self') = take i custom ++ drop (S i) custom /\
  (forall j : nat, (j < n + i)%nat ->
     get_all_devices self' !! j = get_all_devices self !! j) /\
  (forall j : nat, (n + i <= j)%nat ->
     get_all_devices self' !! j = get_all_devices self !! S j) /\
  S (length (get_all_devices self')) = length (get_all_devices self) /\
  take n (get_all_devices self') = DEFAULT_DEVICES /\
  (index = Z.of_nat (length custom) - 1 ->
     custom_devices (config self') = removelast custom).
Proof.
  intros H custom self' i n.
  assert (Hi : (i < length custom)%nat) by (subst i custom; lia).
  assert (E : custom_devices (config self') = delete i custom)
    by (apply custom_devices_delete; exact H).
  assert (A : get_all_devices self' = DEFAULT_DEVICES ++ delete i custom)
    by (unfold get_all_devices; rewrite E; reflexivity).
  split; [rewrite E; apply delete_take_drop|].
  split.
  { intros j Hj. rewrite A. unfold get_all_devices. fold custom.
    destruct (decide (j < n)%nat) as [Hn|Hn].
    - rewrite !lookup_app_l by exact Hn. reflexivity.
    - rewrite !lookup_app_r by (fold n; lia). fold n.
      apply list_lookup_delete_lt. lia. }
  split.
  { intros j Hj. rewrite A. unfold get_all_devices. fold custom.
    rewrite !lookup_app_r by (fold n; lia). fold n.
    replace (S j - n)%nat with (S (j - n)) by lia.
    apply list_lookup_delete_ge. lia. }
  split.
  { rewrite A. unfold get_all_devices. fold custom.
    rewrite !length_app, length_delete by (apply lookup_lt_is_Some; exact Hi).
    lia. }
  split; [rewrite A; apply take_app_length|].
  intros Hl. rewrite E.
  assert (i = pred (length custom)) as -> by lia.
  clear. induction custom as [|a [|b l] IH]; try reflexivity.
  simpl in *. f_equal. exact IH.
Qed.

Lemma delete_removes_exactly_one_witness :
  let d1 := mkDevice "A" 300 600 20 in
  let d2 := mkDevice "B" 320 640 30 in
  let self := add_custom_device (add_custom_device (init None) "A" 300 600 20)
                "B" 320 640 30 in
  custom_devices (config (delete_custom_device self 1)) = [d1] /\
  get_all_devices (delete_custom_device self 1) = DEFAULT_DEVICES ++ [d1].
Proof.
  intros d1 d2 self.
  assert (H : 0 <= 1 < Z.of_nat (length (custom_devices (config self))))
    by (simpl; lia).
  pose proof (delete_removes_exactly_one self 1 H) as (E & _).
  split; [exact E|].
  unfold get_all_devices. rewrite E. reflexivity.
Defined.

End StoreProperties.

(** * Properties of the handlers *)

Section HandlerProperties.
Import PhoneSimulator.

Ltac unfold_monad :=
  unfold mbind, M_bind, mret, M_ret, bindM, ret, get, modify, lift, slot, when in *.

(** The layout handlers leave the configuration manager alone. *)
Lemma update_phone_style_config_manager (s : t) :
  config_manager (update_phone_style s).2 = config_manager s.
Proof.
  unfold update_phone_style, get_current_device. unfold_monad. simpl.
  destruct (if 0 <=? device_index s then _ else _); simpl; [|reflexivity].
  destruct (phone_style _ _ _); reflexivity.
Qed.

Lemma adjust_window_size_config_manager (s : t) :
  config_manager (adjust_window_size s).2 = config_manager s.
Proof.
  unfold adjust_window_size, get_current_device. unfold_monad. simpl.
  destruct (if 0 <=? device_index s then _ else _); simpl; [|reflexivity].
  destruct (scaled (width a) _); simpl; [|reflexivity].
  destruct (scaled (height a) _); simpl; [|reflexivity].
  destruct (Qt.resize _ _); reflexivity.
Qed.

Lemma on_device_changed_config_manager (s : t) :
  config_manager (on_device_changed s).2 = config_manager s.
Proof.
  unfold on_device_changed. unfold_monad.
  destruct (update_phone_style s) as [[[]|e] s'] eqn:E; simpl.
  - rewrite adjust_window_size_config_manager.
    change s' with (Ok (), s').2. rewrite <- E.
    apply update_phone_style_config_manager.
  - change s' with (@Raise unit e, s').2. rewrite <- E.
    apply update_phone_style_config_manager.
Qed.

Lemma refresh_device_list_config_manager (s : t) :
  config_manager (refresh_device_list s).2 = config_manager s.
Proof.
  unfold refresh_device_list. unfold_monad. simpl.
  rewrite on_device_changed_config_manager. simpl.
  rewrite on_device_changed_config_manager. reflexivity.
Qed.

Lemma setCurrentIndex_config_manager (i : Z) (s : t) :
  config_manager (setCurrentIndex i s).2 = config_manager s.
Proof.
  unfold setCurrentIndex. unfold_monad. simpl.
  destruct (i =? device_index s); simpl; [reflexivity|].
  rewrite on_device_changed_config_manager. reflexivity.
Qed.

Lemma refresh_device_list_ok (s : t) : (refresh_device_list s).1 = Ok ().
Proof. reflexivity. Qed.

Lemma setCurrentIndex_ok (i : Z) (s : t) : (setCurrentIndex i s).1 = Ok ().
Proof.
  unfold setCurrentIndex. unfold_monad. simpl.
  destruct (i =? device_index s); reflexivity.
Qed.

(** C10: [load_url] hands the text of the URL field to the web view and
    stores it as [last_url], with ["http://"] put in front exactly when the
    text does not start with ["http"]; the dictionary is then saved. *)
Theorem load_url_prefixes_http (s : t) :
  (String.prefix "http" (url_input s) = false ->
     browser_url (load_url s).2 = Some ("http://" +:+ url_input s) /\
     last_url (config (load_url s).2) = "http://" +:+ url_input s) /\
  (String.prefix "http" (url_input s) = true ->
     browser_url (load_url s).2 = Some (url_input s) /\
     last_url (config (load_url s).2) = url_input s) /\
  (load_url s).1 = Ok () /\
  ConfigManager.file (config_manager (load_url s).2) = Some (config (load_url s).2).
Proof.
  unfold load_url. unfold_monad. simpl.
  split; [intros H; rewrite H; split; reflexivity|].
  split; [intros H; rewrite H; split; reflexivity|].
  split; reflexivity.
Qed.

Lemma load_url_prefixes_http_witness :
  browser_url (load_url (set_url_input "localhost:5173" running)).2 =
    Some "http://localhost:5173" /\
  last_url (config (load_url (set_url_input "localhost:5173" running)).2) =
    "http://localhost:5173".
Proof.
  exact (proj1 (load_url_prefixes_http (set_url_input "localhost:5173" running))
           eq_refl).
Defined.

(** C5, at the frame selector: picking the gold frame in the running
    simulator changes [last_frame_color] and [last_frame_border] in the
    dictionary, yet [on_frame_changed] never calls [save_config]: the file
    keeps the old colours and no write happens. *)
Theorem frame_change_is_not_saved :
  let s := set_frame_text (Some LuxuryGold) running in
  let s' := (on_frame_changed s).2 in
  (on_frame_changed s).1 = Ok () /\
  last_frame_color (config s') = "#d4af37" /\
  last_frame_border (config s') = "#b8860b" /\
  ConfigManager.file (config_manager s') = Some ConfigManager.default_config /\
  ConfigManager.file (config_manager s') <> Some (config s') /\
  ConfigManager.writes (config_manager s') = ConfigManager.writes (config_manager s).
Proof.
  vm_compute. repeat split; try reflexivity. discriminate.
Qed.

(** In any state, [on_frame_changed] leaves the file and the number of
    writes as they were. *)
Lemma on_frame_changed_never_writes (s : t) :
  ConfigManager.file (config_manager (on_frame_changed s).2) =
    ConfigManager.file (config_manager s) /\
  ConfigManager.writes (config_manager (on_frame_changed s).2) =
    ConfigManager.writes (config_manager s).
Proof.
  unfold on_frame_changed. unfold_monad. simpl.
  destruct (frame_text s) as [k|]; [|split; reflexivity].
  destruct (frame_colors k) as [base border]. simpl.
  rewrite update_phone_style_config_manager. split; reflexivity.
Qed.

(** The other mutating actions do save: after each of them the file holds
    the dictionary. *)
Lemma store_actions_write_through (cm : ConfigManager.t) (name : string)
    (index w h r : Z) :
  let saved cm' := ConfigManager.file cm' = Some (ConfigManager.config cm') in
  saved (ConfigManager.add_custom_device cm name w h r) /\
  (0 <= index < Z.of_nat (length (custom_devices (ConfigManager.config cm))) ->
     saved (ConfigManager.update_custom_device cm index name w h r) /\
     saved (ConfigManager.delete_custom_device cm index)).
Proof.
  simpl. split; [reflexivity|]. intros H.
  unfold ConfigManager.update_custom_device, ConfigManager.delete_custom_device.
  rewrite (proj2 (in_range_spec _ _) H). split; reflexivity.
Qed.

Lemma on_scale_changed_writes_through (s : t) (val : float) :
  match scale_text s with
  | Auto => Ok (PyFloat.literal 75 100)
  | Percent n => PyFloat.int_truediv n (PyFloat.literal 100 1)
  end = Ok val ->
  last_scale (config (on_scale_changed s).2) = val /\
  ConfigManager.file (config_manager (on_scale_changed s).2) =
    Some (config (on_scale_changed s).2).
Proof.
  intros H. unfold on_scale_changed, config. unfold_monad. simpl. rewrite H. simpl.
  match goal with
  | |- context [update_phone_style ?s0] =>
      pose proof (update_phone_style_config_manager s0) as U;
      destruct (update_phone_style s0) as [[[]|e] s1]; simpl in *
  end.
  - rewrite adjust_window_size_config_manager, U. split; reflexivity.
  - rewrite U. split; reflexivity.
Qed.

Section AddDialog.
Variable int_of_text : string -> result Z.
Hypothesis int_of_text_raises : forall text e,
  int_of_text text = Raise e -> e = ValueError.

(** C6, as the code has it: the add dialog checks that the three texts are
    integers and nothing more. When one of them is not, no profile is added
    and nothing changes but for the warning box; when all three are, the
    profile is appended and saved whatever the sign of the numbers. A
    dialog that was not accepted changes nothing. *)
Theorem add_dialog_checks_integer_text_only (s : t)
    (name width_edit height_edit radius_edit : string) :
  ((exists e, int_of_text width_edit = Raise e) \/
   (exists e, int_of_text height_edit = Raise e) \/
   (exists e, int_of_text radius_edit = Raise e) ->
   (show_add_device_dialog int_of_text true name width_edit height_edit
      radius_edit s).2 = warning s) /\
  (forall w h r : Z,
     int_of_text width_edit = Ok w ->
     int_of_text height_edit = Ok h ->
     int_of_text radius_edit = Ok r ->
     config_manager
       (show_add_device_dialog int_of_text true name width_edit height_edit
          radius_edit s).2 =
     ConfigManager.add_custom_device (config_manager s) name w h r) /\
  show_add_device_dialog int_of_text false name width_edit height_edit
    radius_edit s = (Ok (), s).
Proof.
  split; [|split; [|reflexivity]].
  - intros H.
    unfold show_add_device_dialog, try_except_ValueError. unfold_monad.
    destruct (int_of_text width_edit) as [w|e] eqn:Ew.
    2: { rewrite (int_of_text_raises _ _ Ew). reflexivity. }
    destruct (int_of_text height_edit) as [h|e] eqn:Eh.
    2: { rewrite (int_of_text_raises _ _ Eh). reflexivity. }
    destruct (int_of_text radius_edit) as [r|e] eqn:Er.
    2: { rewrite (int_of_text_raises _ _ Er). reflexivity. }
    destruct H as [[e H]|[[e H]|[e H]]]; discriminate.
  - intros w h r Ew Eh Er.
    unfold show_add_device_dialog, try_except_ValueError. unfold_monad.
    rewrite Ew, Eh, Er. cbn -[refresh_device_list setCurrentIndex].
    pose proof (refresh_device_list_ok) as RO.
    pose proof (refresh_device_list_config_manager) as RC.
    match goal with
    | |- context [refresh_device_list ?s0] =>
        specialize (RO s0); specialize (RC s0);
        destruct (refresh_device_list s0) as [[[]|e] s1];
        cbn -[setCurrentIndex] in *; [|discriminate]
    end.
    match goal with
    | |- context [setCurrentIndex ?i ?s0] =>
        pose proof (setCurrentIndex_config_manager i s0) as C;
        pose proof (setCurrentIndex_ok i s0) as O;
        destruct (setCurrentIndex i s0) as [[[]|e] s2]; cbn in *;
        [|discriminate]
    end.
    rewrite C, RC. reflexivity.
Qed.

End AddDialog.

Lemma of_string_raises_ValueError (text : string) (e : PyExn) :
  PyInt.of_string text = Raise e -> e = ValueError.
Proof.
  unfold PyInt.of_string.
  destruct (match PyInt.strip _ with [] => _ | _ => _ end) as [neg body].
  destruct (PyInt.digits 0 false body); congruence.
Qed.

Lemma add_dialog_checks_integer_text_only_witness :
  (show_add_device_dialog PyInt.of_string true "Test" "abc" "600" "20"
     running).2 = warning running /\
  config_manager
    (show_add_device_dialog PyInt.of_string true "Test" "300" "600" "20"
       running).2 =
  ConfigManager.add_custom_device (config_manager running) "Test" 300 600 20.
Proof.
  split.
  - apply (add_dialog_checks_integer_text_only PyInt.of_string
             of_string_raises_ValueError running "Test" "abc" "600" "20").
    left. exists ValueError. reflexivity.
  - apply (add_dialog_checks_integer_text_only PyInt.of_string
             of_string_raises_ValueError running "Test" "300" "600" "20");
      reflexivity.
Defined.

(** C6 as stated fails: with the texts 0, -5 and 0 the dialog appends the
    profile and saves it. *)
Lemma add_dialog_accepts_non_positive :
  custom_devices
    (config (show_add_device_dialog PyInt.of_string true "Bad" "0" "-5" "0"
               running).2) = [mkDevice "Bad" 0 (-5) 0] /\
  custom_devices
    (config (show_add_device_dialog PyInt.of_string true "Bad" "0" "-5" "0"
               running).2) <> custom_devices (config running) /\
  ConfigManager.writes
    (config_manager (show_add_device_dialog PyInt.of_string true "Bad" "0"
                       "-5" "0" running).2) =
  S (ConfigManager.writes (config_manager running)).
Proof. vm_compute. repeat split. discriminate. Qed.

End HandlerProperties.

(** * Properties of the layout *)

Section LayoutProperties.
Import PhoneSimulator.

(** ** The conversions at the boundary to Qt *)

Lemma c_int_ok (n : Z) : - 2 ^ 31 <= n < 2 ^ 31 -> Qt.c_int n = Ok n.
Proof.
  intros [L U]. unfold Qt.c_int.
  rewrite (proj2 (Z.leb_le _ _) L), (proj2 (Z.ltb_lt _ _) U). reflexivity.
Qed.

Lemma c_int_inv (n m : Z) :
  Qt.c_int n = Ok m -> m = n /\ - 2 ^ 31 <= n < 2 ^ 31.
Proof.
  unfold Qt.c_int.
  destruct (- 2 ^ 31 <=? n) eqn:L; [|discriminate].
  destruct (n <? 2 ^ 31) eqn:U; [|discriminate].
  intros [= <-]. apply Z.leb_le in L. apply Z.ltb_lt in U. auto.
Qed.

Lemma c_int_raises (n : Z) (e : PyExn) :
  Qt.c_int n = Raise e -> e = OverflowError.
Proof. unfold Qt.c_int. destruct (_ && _); congruence. Qed.

Lemma setFixedSize_ok (w h : Z) :
  - 2 ^ 31 <= w < 2 ^ 31 -> - 2 ^ 31 <= h < 2 ^ 31 ->
  Qt.setFixedSize w h = Ok (Qt.bounded w, Qt.bounded h).
Proof.
  intros W H. unfold Qt.setFixedSize.
  rewrite (c_int_ok w W). cbn [mbind result_bind].
  rewrite (c_int_ok h H). reflexivity.
Qed.

Lemma setFixedSize_inv (w h : Z) (r : Z * Z) :
  Qt.setFixedSize w h = Ok r ->
  r = (Qt.bounded w, Qt.bounded h) /\
  - 2 ^ 31 <= w < 2 ^ 31 /\ - 2 ^ 31 <= h < 2 ^ 31.
Proof.
  unfold Qt.setFixedSize.
  destruct (Qt.c_int w) as [w'|] eqn:W; cbn [mbind result_bind]; [|discriminate].
  destruct (Qt.c_int h) as [h'|] eqn:H; cbn [mbind result_bind]; [|discriminate].
  destruct (c_int_inv _ _ W) as [-> ?], (c_int_inv _ _ H) as [-> ?].
  intros [= <-]. auto.
Qed.

Lemma setGeometry_ok (x y w h : Z) :
  - 2 ^ 31 <= x < 2 ^ 31 -> - 2 ^ 31 <= y < 2 ^ 31 ->
  - 2 ^ 31 <= w < 2 ^ 31 -> - 2 ^ 31 <= h < 2 ^ 31 ->
  Qt.setGeometry x y w h = Ok (x, y, w, h).
Proof.
  intros X Y W H. unfold Qt.setGeometry.
  rewrite (c_int_ok x X). cbn [mbind result_bind].
  rewrite (c_int_ok y Y). cbn [mbind result_bind].
  rewrite (c_int_ok w W). cbn [mbind result_bind].
  rewrite (c_int_ok h H). reflexivity.
Qed.

Lemma setGeometry_inv (x y w h : Z) (r : Z * Z * Z * Z) :
  Qt.setGeometry x y w h = Ok r -> r = (x, y, w, h).
Proof.
  unfold Qt.setGeometry.
  destruct (Qt.c_int x) as [x'|] eqn:X; cbn [mbind result_bind]; [|discriminate].
  destruct (Qt.c_int y) as [y'|] eqn:Y; cbn [mbind result_bind]; [|discriminate].
  destruct (Qt.c_int w) as [w'|] eqn:W; cbn [mbind result_bind]; [|discriminate].
  destruct (Qt.c_int h) as [h'|] eqn:H; cbn [mbind result_bind]; [|discriminate].
  destruct (c_int_inv _ _ X) as [-> _], (c_int_inv _ _ Y) as [-> _],
    (c_int_inv _ _ W) as [-> _], (c_int_inv _ _ H) as [-> _].
  intros [= <-]. reflexivity.
Qed.

Lemma move_ok (x y : Z) :
  - 2 ^ 31 <= x < 2 ^ 31 -> - 2 ^ 31 <= y < 2 ^ 31 ->
  Qt.move x y = Ok (x, y).
Proof.
  intros X Y. unfold Qt.move.
  rewrite (c_int_ok x X). cbn [mbind result_bind].
  rewrite (c_int_ok y Y). reflexivity.
Qed.

Lemma move_inv (x y : Z) (r : Z * Z) : Qt.move x y = Ok r -> r = (x, y).
Proof.
  unfold Qt.move.
  destruct (Qt.c_int x) as [x'|] eqn:X; cbn [mbind result_bind]; [|discriminate].
  destruct (Qt.c_int y) as [y'|] eqn:Y; cbn [mbind result_bind]; [|discriminate].
  destruct (c_int_inv _ _ X) as [-> _], (c_int_inv _ _ Y) as [-> _].
  intros [= <-]. reflexivity.
Qed.

Lemma resize_ok (w h : Z) :
  - 2 ^ 31 <= w < 2 ^ 31 -> - 2 ^ 31 <= h < 2 ^ 31 ->
  Qt.resize w h = Ok (w, h).
Proof.
  intros W H. unfold Qt.resize.
  rewrite (c_int_ok w W). cbn [mbind result_bind].
  rewrite (c_int_ok h H). reflexivity.
Qed.

(** An extent a widget takes as it is reads back unchanged. *)
Lemma bounded_fits (n : Z) : Qt.fits_widget n -> Qt.bounded n = n.
Proof. unfold Qt.fits_widget, Qt.bounded, Qt.QWIDGETSIZE_MAX. lia. Qed.

Lemma bounded_range (n : Z) : 0 <= Qt.bounded n <= Qt.QWIDGETSIZE_MAX.
Proof. unfold Qt.bounded, Qt.QWIDGETSIZE_MAX. lia. Qed.

(** ** The scalings *)

(** [int(x)] of a float below [2^k] is below [2^k]. *)
Lemma to_int_magnitude (k : Z) (x : float) (t : Z) :
  0 <= k -> PyFloat.magnitude_below k x = true -> PyFloat.to_int x = Ok t ->
  Z.abs t < 2 ^ k.
Proof.
  intros K B T.
  assert (P : 0 < 2 ^ k) by (apply Z.pow_pos_nonneg; lia).
  destruct x as [s|s| |s m e]; try discriminate; injection T as <-.
  - simpl. lia.
  - cbn [PyFloat.magnitude_below] in B. apply Z.leb_le in B.
    pose proof (digits2_pos_gt m) as G.
    set (dg := Zpos (digits2_pos m)) in *.
    assert (V : 0 <= Z.shiftl (Zpos m) e < 2 ^ k).
    { destruct e as [|q|q].
      - rewrite Z.shiftl_0_r. split; [lia|].
        apply Z.lt_le_trans with (1 := G). apply Z.pow_le_mono_r; lia.
      - rewrite Z.shiftl_mul_pow2 by lia. split; [lia|].
        apply Z.lt_le_trans with (2 ^ dg * 2 ^ Zpos q).
        + apply Z.mul_lt_mono_pos_r; [apply Z.pow_pos_nonneg; lia|exact G].
        + rewrite <- Z.pow_add_r by (subst dg; lia).
          apply Z.pow_le_mono_r; lia.
      - change (Z.shiftl (Zpos m) (Zneg q)) with (Z.shiftr (Zpos m) (Zpos q)).
        rewrite Z.shiftr_div_pow2 by lia.
        assert (Q : 0 < 2 ^ Zpos q) by (apply Z.pow_pos_nonneg; lia).
        split; [apply Z.div_pos; lia|].
        destruct (Z.le_gt_cases (Zpos q) dg) as [L|L].
        + apply Z.lt_le_trans with (2 ^ (dg - Zpos q)).
          * apply Z.div_lt_upper_bound; [exact Q|].
            rewrite <- Z.pow_add_r by lia.
            replace (Zpos q + (dg - Zpos q)) with dg by lia. exact G.
          * apply Z.pow_le_mono_r; lia.
        + rewrite Z.div_small; [exact P|]. split; [lia|].
          apply Z.lt_le_trans with (1 := G). apply Z.pow_le_mono_r; lia. }
    destruct s; cbn [cond_Zopp]; lia.
Qed.

(** Scaling an int below [2^a] by a finite scale below [2^b] succeeds; the
    result is the float product with its fractional part dropped, and is
    below [2^(a+b+2)]. *)
Lemma scaled_total (a b n : Z) (s : float) :
  Z.abs n < 2 ^ a -> PyFloat.magnitude_below b s = true ->
  0 <= a <= 972 -> 0 <= a + b + 2 -> a + b + 1 <= 972 ->
  exists x t, PyFloat.int_mul n s = Ok x /\ scaled n s = Ok t /\
              PyFloat.truncation_of t x /\ Z.abs t < 2 ^ (a + b + 2).
Proof.
  intros N S A L U.
  destruct (of_int_magnitude n a N A) as (fn & F & M).
  pose proof (mul_magnitude fn s (a + 1) b M S ltac:(lia) ltac:(lia)) as P.
  replace (a + 1 + b + 1) with (a + b + 2) in P by lia.
  destruct (to_int_defined _ _ P) as (t & T).
  exists (PyFloat.mul fn s), t. unfold scaled, PyFloat.int_mul. rewrite F.
  split; [reflexivity|]. split; [exact T|].
  split; [apply to_int_truncates, T|].
  apply (to_int_magnitude _ _ _ L P T).
Qed.

(** What [phone_style] returns once its nine scalings are known and are
    small enough for every int handed to Qt to fit C [int]. *)
Lemma phone_style_spec (c : Config) (d : Device) (ov : BezelOverlay.t)
    (w h r bw blur yoff iw ih top : Z) :
  scaled (width d) (last_scale c) = Ok w ->
  scaled (height d) (last_scale c) = Ok h ->
  scaled (radius d) (last_scale c) = Ok r ->
  scaled 16 (last_scale c) = Ok bw ->
  scaled 40 (last_scale c) = Ok blur ->
  scaled 15 (last_scale c) = Ok yoff ->
  scaled 120 (last_scale c) = Ok iw ->
  scaled 28 (last_scale c) = Ok ih ->
  scaled 10 (last_scale c) = Ok top ->
  Z.abs w < 2 ^ 30 -> Z.abs h < 2 ^ 30 -> Z.abs bw < 2 ^ 20 ->
  Z.abs iw < 2 ^ 30 -> Z.abs ih < 2 ^ 30 -> Z.abs top < 2 ^ 20 ->
  phone_style c d ov =
  Ok (BezelOverlay.mk r (last_scale c) (last_frame_color c)
        (last_frame_border c) bw (Qt.bounded w, Qt.bounded h),
      {| frame_size := (w, h);
         screen_geometry := (bw - bleed, bw - bleed,
                             w - 2 * (bw - bleed), h - 2 * (bw - bleed));
         mask_rect := (0, 0, w - 2 * (bw - bleed), h - 2 * (bw - bleed));
         mask_radius := r - (bw - bleed);
         shadow_blur := blur;
         shadow_y := yoff;
         zoom := last_scale c;
         island_size := (iw, ih);
         island_radius := ih `div` 2;
         island_pos := ((Qt.bounded w - iw) `div` 2, bw + top);
         copy_width := Qt.bounded w;
         copy_pos := (0, Qt.bounded h - 12) |}).
Proof.
  intros Hw Hh Hr Hb Hblur Hy Hiw Hih Htop Bw Bh Bbw Biw Bih Btop.
  pose proof (bounded_range w) as Rw. unfold Qt.QWIDGETSIZE_MAX in Rw.
  assert (X : - 2 ^ 31 <= (Qt.bounded w - iw) `div` 2 < 2 ^ 31).
  { split.
    - apply Z.div_le_lower_bound; lia.
    - apply Z.div_lt_upper_bound; lia. }
  unfold phone_style, BezelOverlay.set_params.
  change (PyFloat.int_mul BezelOverlay.bezel_base_w (last_scale c) ≫= PyFloat.to_int)
    with (scaled 16 (last_scale c)).
  rewrite Hw. cbn [mbind result_bind]. rewrite Hh. cbn [mbind result_bind].
  rewrite Hr. cbn [mbind result_bind].
  rewrite (setFixedSize_ok w h) by lia. cbn [mbind result_bind].
  rewrite Hb. cbn [mbind result_bind].
  cbn [BezelOverlay.bezel_w BezelOverlay.size].
  rewrite setGeometry_ok by (unfold bleed; lia). cbn [mbind result_bind].
  rewrite Hblur. cbn [mbind result_bind]. rewrite Hy. cbn [mbind result_bind].
  rewrite Hiw. cbn [mbind result_bind]. rewrite Hih. cbn [mbind result_bind].
  rewrite (setFixedSize_ok iw ih) by lia. cbn [mbind result_bind].
  rewrite Htop. cbn [mbind result_bind fst snd].
  rewrite move_ok by (try exact X; lia). reflexivity.
Qed.

(** With a profile and a scale in range the nine scalings succeed, and
    their results are small. *)
Lemma phone_style_total (c : Config) (d : Device) :
  dims_in_range d -> scale_in_range (last_scale c) ->
  exists w h r bw blur yoff iw ih top,
    scaled (width d) (last_scale c) = Ok w /\
    scaled (height d) (last_scale c) = Ok h /\
    scaled (radius d) (last_scale c) = Ok r /\
    scaled 16 (last_scale c) = Ok bw /\
    scaled 40 (last_scale c) = Ok blur /\
    scaled 15 (last_scale c) = Ok yoff /\
    scaled 120 (last_scale c) = Ok iw /\
    scaled 28 (last_scale c) = Ok ih /\
    scaled 10 (last_scale c) = Ok top /\
    Z.abs w < 2 ^ 22 /\ Z.abs h < 2 ^ 22 /\ Z.abs bw < 2 ^ 13 /\
    Z.abs iw < 2 ^ 13 /\ Z.abs ih < 2 ^ 13 /\ Z.abs top < 2 ^ 13.
Proof.
  intros (Dw & Dh & Dr) S. unfold scale_in_range in S.
  destruct (scaled_total 16 4 _ _ Dw S) as (? & w & _ & Hw & _ & Bw); try lia.
  destruct (scaled_total 16 4 _ _ Dh S) as (? & h & _ & Hh & _ & Bh); try lia.
  destruct (scaled_total 16 4 _ _ Dr S) as (? & r & _ & Hr & _); try lia.
  destruct (scaled_total 7 4 16 _ ltac:(lia) S) as (? & bw & _ & Hb & _ & Bb); try lia.
  destruct (scaled_total 7 4 40 _ ltac:(lia) S) as (? & blur & _ & Hblur & _); try lia.
  destruct (scaled_total 7 4 15 _ ltac:(lia) S) as (? & yoff & _ & Hy & _); try lia.
  destruct (scaled_total 7 4 120 _ ltac:(lia) S) as (? & iw & _ & Hiw & _ & Bi); try lia.
  destruct (scaled_total 7 4 28 _ ltac:(lia) S) as (? & ih & _ & Hih & _ & Bj); try lia.
  destruct (scaled_total 7 4 10 _ ltac:(lia) S) as (? & top & _ & Htop & _ & Bt); try lia.
  exists w, h, r, bw, blur, yoff, iw, ih, top.
  change (16 + 4 + 2) with 22 in *. change (7 + 4 + 2) with 13 in *. tauto.
Qed.

(** The layout of a profile in range at a scale in range. *)
Lemma phone_style_in_range (c : Config) (d : Device) (ov : BezelOverlay.t) :
  dims_in_range d -> scale_in_range (last_scale c) ->
  exists w h r bw blur yoff iw ih top,
    scaled (width d) (last_scale c) = Ok w /\
    scaled (height d) (last_scale c) = Ok h /\
    scaled (radius d) (last_scale c) = Ok r /\
    scaled 16 (last_scale c) = Ok bw /\
    Z.abs w < 2 ^ 22 /\ Z.abs h < 2 ^ 22 /\
    phone_style c d ov =
    Ok (BezelOverlay.mk r (last_scale c) (last_frame_color c)
          (last_frame_border c) bw (Qt.bounded w, Qt.bounded h),
        {| frame_size := (w, h);
           screen_geometry := (bw - bleed, bw - bleed,
                               w - 2 * (bw - bleed), h - 2 * (bw - bleed));
           mask_rect := (0, 0, w - 2 * (bw - bleed), h - 2 * (bw - bleed));
           mask_radius := r - (bw - bleed);
           shadow_blur := blur;
           shadow_y := yoff;
           zoom := last_scale c;
           island_size := (iw, ih);
           island_radius := ih `div` 2;
           island_pos := ((Qt.bounded w - iw) `div` 2, bw + top);
           copy_width := Qt.bounded w;
           copy_pos := (0, Qt.bounded h - 12) |}).
Proof.
  intros D S.
  destruct (phone_style_total c d D S)
    as (w & h & r & bw & blur & yoff & iw & ih & top &
        Hw & Hh & Hr & Hb & Hblur & Hy & Hiw & Hih & Htop &
        Bw & Bh & Bb & Bi & Bj & Bt).
  exists w, h, r, bw, blur, yoff, iw, ih, top.
  repeat (split; [assumption|]).
  apply phone_style_spec; try assumption; lia.
Qed.

(** C1, as the code computes it: for the profile 390 x 844 with radius 50
    at scale 0.7 the frame is 273 x 590 ([int] drops the fraction of
    590.8), the bezel is 11 wide, the margin 10, the screen rectangle
    (10, 10, 253, 570) and the corner radius of the screen mask 25; the
    hole that [paintEvent] cuts is (11, 11, 251, 568) with radius 24. *)
Theorem iphone13_layout_at_scale_07 (name url base border : string)
    (idx : Z) (devices : list Device) (ov : BezelOverlay.t) :
  exists ov' st,
    phone_style (mkConfig url idx base border (PyFloat.literal 7 10) devices)
      (mkDevice name 390 844 50) ov = Ok (ov', st) /\
    frame_size st = (273, 590) /\
    BezelOverlay.bezel_w ov' = 11 /\
    screen_geometry st = (10, 10, 253, 570) /\
    mask_radius st = 25 /\
    BezelOverlay.paintEvent ov' =
      BezelOverlay.mkHole (11, 11, 251, 568) 24.
Proof.
  eexists _, _. split; [vm_compute; reflexivity|].
  repeat split.
Qed.

(** C1 as stated fails: the frame is not 273 x 591 and the screen
    rectangle is not (10, 10, 253, 571). *)
Lemma iphone13_layout_not_as_claimed :
  exists ov' st,
    phone_style ConfigManager.default_config
      (mkDevice "iPhone 13/14/15" 390 844 50) BezelOverlay.init = Ok (ov', st) /\
    frame_size st <> (273, 591) /\
    screen_geometry st <> (10, 10, 253, 571).
Proof.
  eexists _, _. split; [vm_compute; reflexivity|].
  split; discriminate.
Qed.

(** C2 as stated fails: rounding 844 * 0.7 to the nearest integer gives
    591, the frame height is 590. *)
Lemma scaled_height_is_not_rounded :
  exists ov' st,
    phone_style ConfigManager.default_config
      (mkDevice "iPhone 13/14/15" 390 844 50) BezelOverlay.init = Ok (ov', st) /\
    (PyFloat.int_mul 844 (last_scale ConfigManager.default_config)
       ≫= PyFloat.round) = Ok 591 /\
    snd (frame_size st) = 590.
Proof.
  eexists _, _. split; [vm_compute; reflexivity|].
  split; reflexivity.
Qed.

(** C2, as the code computes it: for every profile with dimensions below
    [2^16] in absolute value and every finite scale below 16 in absolute
    value the layout completes, and the frame width and height handed to
    [setFixedSize] and the bezel width are the float products
    [width * scale], [height * scale] and [16 * scale] with the fractional
    part dropped. *)
Theorem scaled_dimensions_are_truncated (c : Config) (d : Device)
    (ov : BezelOverlay.t) :
  dims_in_range d -> scale_in_range (last_scale c) ->
  exists ov' st xw xh xb,
    phone_style c d ov = Ok (ov', st) /\
    PyFloat.int_mul (width d) (last_scale c) = Ok xw /\
    PyFloat.int_mul (height d) (last_scale c) = Ok xh /\
    PyFloat.int_mul BezelOverlay.bezel_base_w (last_scale c) = Ok xb /\
    PyFloat.truncation_of (fst (frame_size st)) xw /\
    PyFloat.truncation_of (snd (frame_size st)) xh /\
    PyFloat.truncation_of (BezelOverlay.bezel_w ov') xb.
Proof.
  intros D S.
  destruct (phone_style_in_range c d ov D S)
    as (w & h & r & bw & blur & yoff & iw & ih & top &
        Hw & Hh & Hr & Hb & _ & _ & P).
  destruct D as (Dw & Dh & _). unfold scale_in_range in S.
  destruct (scaled_total 16 4 _ _ Dw S) as (xw & w' & Xw & Hw' & Tw & _); try lia.
  destruct (scaled_total 16 4 _ _ Dh S) as (xh & h' & Xh & Hh' & Th & _); try lia.
  destruct (scaled_total 7 4 16 _ ltac:(lia) S)
    as (xb & bw' & Xb & Hb' & Tb & _); try lia.
  assert (w' = w) as -> by congruence.
  assert (h' = h) as -> by congruence.
  assert (bw' = bw) as -> by congruence.
  eexists _, _, xw, xh, xb.
  split; [exact P|].
  repeat (split; [assumption|]). assumption.
Qed.

Lemma scaled_dimensions_are_truncated_witness :
  exists ov' st xw xh xb,
    phone_style ConfigManager.default_config
      (mkDevice "iPhone 13/14/15" 390 844 50) BezelOverlay.init = Ok (ov', st) /\
    PyFloat.int_mul 390 (PyFloat.literal 7 10) = Ok xw /\
    PyFloat.int_mul 844 (PyFloat.literal 7 10) = Ok xh /\
    PyFloat.int_mul 16 (PyFloat.literal 7 10) = Ok xb /\
    PyFloat.truncation_of (fst (frame_size st)) xw /\
    PyFloat.truncation_of (snd (frame_size st)) xh /\
    PyFloat.truncation_of (BezelOverlay.bezel_w ov') xb.
Proof.
  apply (scaled_dimensions_are_truncated ConfigManager.default_config
           (mkDevice "iPhone 13/14/15" 390 844 50) BezelOverlay.init).
  - unfold dims_in_range. simpl. lia.
  - reflexivity.
Defined.

(** C3 as stated fails: at 390 x 844, radius 50, scale 0.7 the hole of
    the bezel has corner radius 24, while
    [max(0, round(radius * scale) - (bezelWidth - bleed))] is 25. *)
Lemma hole_radius_not_as_claimed :
  exists ov' st r,
    phone_style ConfigManager.default_config
      (mkDevice "iPhone 13/14/15" 390 844 50) BezelOverlay.init = Ok (ov', st) /\
    (PyFloat.int_mul 50 (last_scale ConfigManager.default_config)
       ≫= PyFloat.round) = Ok r /\
    Z.max 0 (r - (BezelOverlay.bezel_w ov' - bleed)) = 25 /\
    BezelOverlay.inner_r (BezelOverlay.paintEvent ov') = 24.
Proof.
  eexists _, _, _. split; [vm_compute; reflexivity|].
  split; [vm_compute; reflexivity|]. split; reflexivity.
Qed.

(** C3, as the code computes it: for every profile with dimensions below
    [2^16] in absolute value and every finite scale below 16 in absolute
    value, with [r = int(radius * scale)] and [bw = int(16 * scale)], the
    hole of the bezel has corner radius [max(0, r - bw)], which is never
    negative, and the screen mask has corner radius [r - (bw - bleed)]
    whenever [r] is at least the margin [bw - bleed]. *)
Theorem inner_corner_radii (c : Config) (d : Device) (ov : BezelOverlay.t) :
  dims_in_range d -> scale_in_range (last_scale c) ->
  exists ov' st r bw,
    phone_style c d ov = Ok (ov', st) /\
    scaled (radius d) (last_scale c) = Ok r /\
    scaled BezelOverlay.bezel_base_w (last_scale c) = Ok bw /\
    BezelOverlay.inner_r (BezelOverlay.paintEvent ov') = Z.max 0 (r - bw) /\
    0 <= BezelOverlay.inner_r (BezelOverlay.paintEvent ov') /\
    (bw - bleed <= r ->
       mask_radius st = r - (bw - bleed) /\ 0 <= mask_radius st).
Proof.
  intros D S.
  destruct (phone_style_in_range c d ov D S)
    as (w & h & r & bw & blur & yoff & iw & ih & top &
        Hw & Hh & Hr & Hb & _ & _ & P).
  eexists _, _, r, bw.
  split; [exact P|].
  split; [exact Hr|]. split; [exact Hb|].
  cbn [BezelOverlay.paintEvent BezelOverlay.inner_r BezelOverlay.radius
       BezelOverlay.bezel_w mask_radius].
  split; [reflexivity|]. split; [lia|]. intros L. lia.
Qed.

Lemma inner_corner_radii_witness :
  exists ov' st r bw,
    phone_style ConfigManager.default_config
      (mkDevice "iPhone 13/14/15" 390 844 50) BezelOverlay.init = Ok (ov', st) /\
    scaled 50 (PyFloat.literal 7 10) = Ok r /\
    scaled 16 (PyFloat.literal 7 10) = Ok bw /\
    BezelOverlay.inner_r (BezelOverlay.paintEvent ov') = Z.max 0 (r - bw) /\
    0 <= BezelOverlay.inner_r (BezelOverlay.paintEvent ov') /\
    (bw - bleed <= r ->
       mask_radius st = r - (bw - bleed) /\ 0 <= mask_radius st).
Proof.
  apply (inner_corner_radii ConfigManager.default_config
           (mkDevice "iPhone 13/14/15" 390 844 50) BezelOverlay.init).
  - unfold dims_in_range. simpl. lia.
  - reflexivity.
Defined.




End LayoutProperties.

(** * Further properties of the store *)

Section MoreStoreProperties.
Import ConfigManager.

(** With an index inside the custom list, [update_custom_device] replaces
    the profile at that index and nothing else: the list keeps its length,
    every other position of the combined list (all built-ins among them)
    keeps its profile, and the result is saved. *)
Theorem update_replaces_exactly_one (self : t) (index : Z) (name : string)
    (w h r : Z) :
  0 <= index < Z.of_nat (length (custom_devices (config self))) ->
  let self' := update_custom_device self index name w h r in
  let n := length DEFAULT_DEVICES in
  let i := Z.to_nat index in
  custom_devices (config self') !! i = Some (mkDevice name w h r) /\
  get_all_devices self' !! (n + i)%nat = Some (mkDevice name w h r) /\
  (forall j : nat, j <> (n + i)%nat ->
     get_all_devices self' !! j = get_all_devices self !! j) /\
  length (get_all_devices self') = length (get_all_devices self) /\
  file self' = Some (config self') /\
  writes self' = S (writes self).
Proof.
  intros H self' n i.
  assert (Hi : (i < length (custom_devices (config self)))%nat) by (subst i; lia).
  assert (E : custom_devices (config self') =
              <[i := mkDevice name w h r]> (custom_devices (config self))).
  { subst self'. unfold update_custom_device.
    rewrite (proj2 (in_range_spec _ _) H). reflexivity. }
  assert (F : file self' = Some (config self') /\ writes self' = S (writes self)).
  { subst self'. unfold update_custom_device.
    rewrite (proj2 (in_range_spec _ _) H). split; reflexivity. }
  split; [rewrite E; apply list_lookup_insert_eq; exact Hi|].
  split.
  { unfold get_all_devices. rewrite E, lookup_app_r by (fold n; lia).
    fold n. replace (n + i - n)%nat with i by lia.
    apply list_lookup_insert_eq. exact Hi. }
  split.
  { intros j Hj. unfold get_all_devices. rewrite E.
    destruct (decide (j < n)%nat) as [Hn|Hn].
    - rewrite !lookup_app_l by exact Hn. reflexivity.
    - rewrite !lookup_app_r by (fold n; lia). fold n.
      apply list_lookup_insert_ne. lia. }
  split; [|exact F].
  unfold get_all_devices. rewrite E, !length_app, length_insert. reflexivity.
Qed.

Lemma update_replaces_exactly_one_witness :
  let self := add_custom_device (add_custom_device (init None) "A" 300 600 20)
                "B" 320 640 30 in
  custom_devices (config (update_custom_device self 0 "C" 1 2 3)) !! 0%nat =
    Some (mkDevice "C" 1 2 3) /\
  length (get_all_devices (update_custom_device self 0 "C" 1 2 3)) =
    length (get_all_devices self).
Proof.
  intros self.
  assert (H : 0 <= 0 < Z.of_nat (length (custom_devices (config self))))
    by (simpl; lia).
  pose proof (update_replaces_exactly_one self 0 "C" 1 2 3 H)
    as (A & _ & _ & L & _).
  split; [exact A|exact L].
Defined.

End MoreStoreProperties.

(** * Further properties of the layout and of the window *)

Section WindowProperties.
Import PhoneSimulator.

(** What a completed layout consists of. *)
Lemma phone_style_inv (c : Config) (d : Device) (ov ov' : BezelOverlay.t)
    (st : PhoneStyle) :
  phone_style c d ov = Ok (ov', st) ->
  exists w h r bw iw ih top,
    scaled (width d) (last_scale c) = Ok w /\
    scaled (height d) (last_scale c) = Ok h /\
    scaled (radius d) (last_scale c) = Ok r /\
    scaled 16 (last_scale c) = Ok bw /\
    scaled 120 (last_scale c) = Ok iw /\
    scaled 28 (last_scale c) = Ok ih /\
    scaled 10 (last_scale c) = Ok top /\
    ov' = BezelOverlay.mk r (last_scale c) (last_frame_color c)
            (last_frame_border c) bw (Qt.bounded w, Qt.bounded h) /\
    frame_size st = (w, h) /\
    screen_geometry st =
      (bw - bleed, bw - bleed, w - 2 * (bw - bleed), h - 2 * (bw - bleed)) /\
    mask_rect st = (0, 0, w - 2 * (bw - bleed), h - 2 * (bw - bleed)) /\
    mask_radius st = r - (bw - bleed) /\
    island_size st = (iw, ih) /\
    island_radius st = ih `div` 2 /\
    island_pos st = ((Qt.bounded w - iw) `div` 2, bw + top).
Proof.
  intros H. unfold phone_style, BezelOverlay.set_params in H.
  change (PyFloat.int_mul BezelOverlay.bezel_base_w (last_scale c) ≫= PyFloat.to_int)
    with (scaled 16 (last_scale c)) in H.
  destruct (scaled (width d) (last_scale c)) as [w|e] eqn:Hw;
    cbn [mbind result_bind] in H; [|discriminate H].
  destruct (scaled (height d) (last_scale c)) as [h|e] eqn:Hh;
    cbn [mbind result_bind] in H; [|discriminate H].
  destruct (scaled (radius d) (last_scale c)) as [r|e] eqn:Hr;
    cbn [mbind result_bind] in H; [|discriminate H].
  destruct (Qt.setFixedSize w h) as [fr|e] eqn:Hf;
    cbn [mbind result_bind] in H; [|discriminate H].
  destruct (setFixedSize_inv _ _ _ Hf) as (-> & _ & _).
  destruct (scaled 16 (last_scale c)) as [bw|e] eqn:Hb;
    cbn [mbind result_bind BezelOverlay.bezel_w BezelOverlay.size] in H;
    [|discriminate H].
  destruct (Qt.setGeometry _ _ _ _) as [g|e] eqn:Hg;
    cbn [mbind result_bind] in H; [|discriminate H].
  apply setGeometry_inv in Hg. subst g.
  destruct (scaled 40 (last_scale c)) as [blur|e] eqn:Hblur;
    cbn [mbind result_bind] in H; [|discriminate H].
  destruct (scaled 15 (last_scale c)) as [yoff|e] eqn:Hy;
    cbn [mbind result_bind] in H; [|discriminate H].
  destruct (scaled 120 (last_scale c)) as [iw|e] eqn:Hiw;
    cbn [mbind result_bind] in H; [|discriminate H].
  destruct (scaled 28 (last_scale c)) as [ih|e] eqn:Hih;
    cbn [mbind result_bind] in H; [|discriminate H].
  destruct (Qt.setFixedSize iw ih) as [isz|e] eqn:Hi;
    cbn [mbind result_bind] in H; [|discriminate H].
  destruct (scaled 10 (last_scale c)) as [top|e] eqn:Htop;
    cbn [mbind result_bind fst snd] in H; [|discriminate H].
  destruct (Qt.move _ _) as [pos|e] eqn:Hm;
    cbn [mbind result_bind] in H; [|discriminate H].
  apply move_inv in Hm. subst pos.
  injection H as <- <-.
  exists w, h, r, bw, iw, ih, top. repeat (split; [reflexivity|]). reflexivity.
Qed.

(** Whenever the layout completes with a frame size that the widgets take
    as it is, the screen widget and the bezel line up: the rectangle handed
    to [screen_widget.setGeometry] is the rectangle [paintEvent] strokes as
    the inner shadow, one pixel (the bleed) larger on each side than the
    hole of the bezel, and when the scaled radius is at least the bezel
    width the screen mask has the corner radius of that shadow path. *)
Theorem screen_matches_inner_shadow (c : Config) (d : Device)
    (ov ov' : BezelOverlay.t) (st : PhoneStyle) :
  phone_style c d ov = Ok (ov', st) ->
  Qt.fits_widget (frame_size st).1 -> Qt.fits_widget (frame_size st).2 ->
  BezelOverlay.size ov' = frame_size st /\
  (Window.inner_shadow ov').1 = screen_geometry st /\
  BezelOverlay.inner_rect (BezelOverlay.paintEvent ov') =
    BezelOverlay.adjusted (screen_geometry st) bleed bleed (- bleed) (- bleed) /\
  (BezelOverlay.bezel_w ov' <= BezelOverlay.radius ov' ->
     (Window.inner_shadow ov').2 = mask_radius st).
Proof.
  intros H.
  destruct (phone_style_inv _ _ _ _ _ H)
    as (w & h & r & bw & iw & ih & top & _ & _ & _ & _ & _ & _ & _ &
        -> & -> & -> & _ & -> & _).
  cbn [fst snd]. intros Fw Fh.
  unfold Window.inner_shadow, BezelOverlay.paintEvent, BezelOverlay.adjusted, bleed.
  cbn [BezelOverlay.bezel_w BezelOverlay.radius BezelOverlay.size
       BezelOverlay.inner_rect BezelOverlay.inner_r fst snd].
  rewrite (bounded_fits w Fw), (bounded_fits h Fh).
  split; [reflexivity|].
  split; [repeat match goal with |- (_, _) = (_, _) => f_equal end; lia|].
  split; [repeat match goal with |- (_, _) = (_, _) => f_equal end; lia|].
  intros L. lia.
Qed.

Lemma screen_matches_inner_shadow_witness :
  exists ov' st,
    phone_style ConfigManager.default_config
      (mkDevice "iPhone 13/14/15" 390 844 50) BezelOverlay.init = Ok (ov', st) /\
    (Window.inner_shadow ov').1 = screen_geometry st /\
    (Window.inner_shadow ov').2 = mask_radius st.
Proof.
  eexists _, _. split; [vm_compute; reflexivity|].
  match goal with
  | |- (Window.inner_shadow ?o).1 = screen_geometry ?s /\ _ =>
      pose proof (screen_matches_inner_shadow ConfigManager.default_config
                    (mkDevice "iPhone 13/14/15" 390 844 50) BezelOverlay.init
                    o s ltac:(vm_compute; reflexivity)
                    ltac:(unfold Qt.fits_widget, Qt.QWIDGETSIZE_MAX; simpl; lia)
                    ltac:(unfold Qt.fits_widget, Qt.QWIDGETSIZE_MAX; simpl; lia))
        as (_ & A & _ & B)
  end.
  split; [exact A|]. apply B. simpl. lia.
Defined.

(** Whenever the layout completes with a frame width and an island width
    that the widgets take as they are, the island sits in the middle of
    the frame: the gap to its right is the gap to its left or one pixel
    more. Its top is the bezel width plus [int(10 * scale)], and its
    corner radius is half its height, rounded down. *)
Theorem island_is_centred (c : Config) (d : Device)
    (ov ov' : BezelOverlay.t) (st : PhoneStyle) :
  phone_style c d ov = Ok (ov', st) ->
  Qt.fits_widget (frame_size st).1 -> Qt.fits_widget (island_size st).1 ->
  let left := (island_pos st).1 in
  let right := (frame_size st).1 - ((island_pos st).1 + (island_size st).1) in
  (right = left \/ right = left + 1) /\
  scaled 10 (last_scale c) = Ok ((island_pos st).2 - BezelOverlay.bezel_w ov') /\
  (2 * island_radius st = (island_size st).2 \/
   2 * island_radius st + 1 = (island_size st).2).
Proof.
  intros H.
  destruct (phone_style_inv _ _ _ _ _ H)
    as (w & h & r & bw & iw & ih & top & _ & _ & _ & _ & _ & _ & Htop &
        -> & -> & _ & _ & _ & -> & -> & ->).
  cbn [fst snd BezelOverlay.bezel_w]. intros Fw _.
  rewrite (bounded_fits w Fw).
  split; [|split].
  - pose proof (Z.div_mod (w - iw) 2 ltac:(lia)).
    pose proof (Z.mod_pos_bound (w - iw) 2 ltac:(lia)). lia.
  - rewrite Htop. f_equal. lia.
  - pose proof (Z.div_mod ih 2 ltac:(lia)).
    pose proof (Z.mod_pos_bound ih 2 ltac:(lia)). lia.
Qed.

Lemma island_is_centred_witness :
  exists ov' st,
    phone_style ConfigManager.default_config
      (mkDevice "iPhone 13/14/15" 390 844 50) BezelOverlay.init = Ok (ov', st) /\
    island_pos st = (94, 18) /\ island_size st = (84, 19) /\
    ((frame_size st).1 - ((island_pos st).1 + (island_size st).1) =
       (island_pos st).1 \/
     (frame_size st).1 - ((island_pos st).1 + (island_size st).1) =
       (island_pos st).1 + 1).
Proof.
  eexists _, _. split; [vm_compute; reflexivity|].
  split; [reflexivity|]. split; [reflexivity|].
  match goal with
  | |- (frame_size ?s).1 - _ = _ \/ _ =>
      exact (proj1 (island_is_centred ConfigManager.default_config
                      (mkDevice "iPhone 13/14/15" 390 844 50) BezelOverlay.init
                      (BezelOverlay.mk 35 (PyFloat.literal 7 10) "#111" "#444" 11
                         (273, 590)) s ltac:(vm_compute; reflexivity)
                      ltac:(unfold Qt.fits_widget, Qt.QWIDGETSIZE_MAX; simpl; lia)
                      ltac:(unfold Qt.fits_widget, Qt.QWIDGETSIZE_MAX; simpl; lia)))
  end.
Defined.

Lemma Zdigits2_pos (m : Z) : 0 <= m -> 1 <= Zdigits2 m -> 0 < m.
Proof. destruct m; simpl; lia. Qed.

Lemma Zdigits2_div_ge (m s : Z) :
  0 <= m -> 0 <= s -> Zdigits2 m - s <= Zdigits2 (m / 2 ^ s).
Proof.
  intros Hm Hs.
  assert (P : 0 < 2 ^ s) by (apply Z.pow_pos_nonneg; lia).
  assert (Q : 0 <= m / 2 ^ s) by (apply Z.div_pos; lia).
  pose proof (Zdigits2_gt _ Q) as G.
  pose proof (Zdigits2_nonneg (m / 2 ^ s)) as N.
  pose proof (Z.mul_succ_div_gt m (2 ^ s) P) as U.
  assert (L : Zdigits2 m <= Zdigits2 (m / 2 ^ s) + s); [|lia].
  apply Zdigits2_le; [exact Hm|lia|].
  rewrite Z.pow_add_r by lia. nia.
Qed.

(** Rounding a positive number of at least [2^-1074] never gives zero. *)
Lemma binary_round_aux_nonzero (sx : bool) (mx : positive) (ex : Z) :
  -1073 <= Zpos (digits2_pos mx) + ex ->
  PyFloat.is_zero (binary_round_aux 53 1024 sx (Zpos mx) ex loc_Exact) = false.
Proof.
  intros D. unfold binary_round_aux, shr_fexp.
  set (d := Zdigits2 (Zpos mx)). assert (Hd : d = Zpos (digits2_pos mx)) by reflexivity.
  set (n1 := fexp 53 1024 (d + ex) - ex).
  pose proof (shr_spec (Zpos mx) loc_Exact ex n1 ltac:(lia)) as [M1 E1].
  destruct (shr (shr_record_of_loc (Zpos mx) loc_Exact) ex n1) as [mrs1 e1].
  simpl in M1, E1.
  set (m1 := round_nearest_even (shr_m mrs1) (loc_of_shr_record mrs1)).
  pose proof (round_nearest_even_bounds (shr_m mrs1) (loc_of_shr_record mrs1)) as R.
  fold m1 in R.
  assert (P1 : 0 <= shr_m mrs1)
    by (rewrite M1; apply Z.div_pos; [lia|apply Z.pow_pos_nonneg; lia]).
  set (n2 := fexp 53 1024 (Zdigits2 m1 + e1) - e1).
  pose proof (shr_spec m1 loc_Exact e1 n2 ltac:(lia)) as [M2 E2].
  destruct (shr (shr_record_of_loc m1 loc_Exact) e1 n2) as [mrs2 e2].
  simpl in M2, E2.
  assert (D1 : d - Z.max 0 n1 <= Zdigits2 (shr_m mrs1))
    by (rewrite M1; apply Zdigits2_div_ge; lia).
  assert (Dm1 : Zdigits2 (shr_m mrs1) <= Zdigits2 m1)
    by (apply Zdigits2_mono; lia).
  assert (D2 : Zdigits2 m1 - Z.max 0 n2 <= Zdigits2 (shr_m mrs2))
    by (rewrite M2; apply Zdigits2_div_ge; lia).
  unfold fexp, emin in n1, n2.
  change IntDef.Z.max with Z.max in *. subst n1 n2.
  assert (P2 : 0 <= shr_m mrs2)
    by (rewrite M2; apply Z.div_pos; [lia|apply Z.pow_pos_nonneg; lia]).
  assert (Pos2 : 0 < shr_m mrs2) by (apply Zdigits2_pos; lia).
  destruct (shr_m mrs2) as [|q|q]; [lia| |lia].
  destruct (e2 <=? 1024 - 53); reflexivity.
Qed.

(** The float of a nonzero int is not zero. *)
Lemma of_int_nonzero (n : Z) (x : float) :
  n <> 0 -> PyFloat.of_int n = Ok x -> PyFloat.is_zero x = false.
Proof.
  intros N F. unfold PyFloat.of_int, binary_normalize in F.
  assert (B : forall sx m, PyFloat.is_zero (binary_round 53 1024 sx m 0) = false).
  { intros sx m. unfold binary_round, shl_align.
    destruct (fexp 53 1024 (Zpos (digits2_pos m) + 0) - 0) as [|k|k] eqn:E;
      try (apply binary_round_aux_nonzero; lia).
    apply binary_round_aux_nonzero. unfold fexp, emin in *.
    change IntDef.Z.max with Z.max in *. lia. }
  destruct n as [|m|m]; [congruence| |].
  - specialize (B false m). change PyFloat.prec with 53 in F.
    change PyFloat.emax with 1024 in F.
    destruct (binary_round 53 1024 false m 0); try discriminate;
      injection F as <-; exact B.
  - specialize (B true m). change PyFloat.prec with 53 in F.
    change PyFloat.emax with 1024 in F.
    destruct (binary_round 53 1024 true m 0); try discriminate;
      injection F as <-; exact B.
Qed.

(** A scale that is not finite makes [update_phone_style] raise at its
    first line, before any widget is touched: a NaN gives [ValueError], an
    infinity gives [OverflowError] when the width of the profile is not
    zero. *)
Theorem layout_raises_on_non_finite_scale (s : t) (d : Device) :
  (get_current_device s).1 = Ok d ->
  0 < Z.abs (width d) < 2 ^ 64 ->
  (last_scale (config s) = S754_nan ->
     update_phone_style s = (Raise ValueError, s)) /\
  (forall sign, last_scale (config s) = S754_infinity sign ->
     update_phone_style s = (Raise OverflowError, s)).
Proof.
  intros G (Wpos & W).
  destruct (of_int_magnitude (width d) 64 W ltac:(lia)) as (fn & F & B).
  pose proof (of_int_nonzero (width d) fn ltac:(lia) F) as NZ.
  assert (G' : get_current_device s = (Ok d, s)).
  { revert G. unfold get_current_device.
    unfold mbind, M_bind, bindM, get, lift. cbn [fst snd]. intros ->. reflexivity. }
  assert (U : forall e, phone_style (config s) d (bezel_overlay s) = Raise e ->
                        update_phone_style s = (Raise e, s)).
  { intros e E. unfold update_phone_style.
    unfold mbind, M_bind, bindM, get, lift. rewrite G'. cbn [fst snd]. rewrite E.
    reflexivity. }
  split.
  - intros S. apply U. unfold phone_style, scaled, PyFloat.int_mul.
    rewrite S, F. destruct fn; reflexivity.
  - intros sign S. apply U. unfold phone_style, scaled, PyFloat.int_mul.
    rewrite S, F. destruct fn; try discriminate; reflexivity.
Qed.

Lemma layout_raises_on_non_finite_scale_witness :
  update_phone_style
    (set_config (set_scale S754_nan) running) =
  (Raise ValueError, set_config (set_scale S754_nan) running).
Proof.
  apply (layout_raises_on_non_finite_scale
           (set_config (set_scale S754_nan) running)
           (mkDevice "iPhone 13/14/15" 390 844 50)).
  - reflexivity.
  - simpl. lia.
  - reflexivity.
Defined.

(** A scaled frame size that does not fit C [int] makes
    [update_phone_style] raise [OverflowError] at [setFixedSize], its
    first widget call, and nothing has changed by then. *)
Theorem layout_raises_beyond_c_int (s : t) (d : Device) (w h r : Z) :
  (get_current_device s).1 = Ok d ->
  scaled (width d) (last_scale (config s)) = Ok w ->
  scaled (height d) (last_scale (config s)) = Ok h ->
  scaled (radius d) (last_scale (config s)) = Ok r ->
  (w < - 2 ^ 31 \/ 2 ^ 31 <= w) \/ (h < - 2 ^ 31 \/ 2 ^ 31 <= h) ->
  update_phone_style s = (Raise OverflowError, s).
Proof.
  intros G Hw Hh Hr B.
  assert (G' : get_current_device s = (Ok d, s)).
  { revert G. unfold get_current_device.
    unfold mbind, M_bind, bindM, get, lift. cbn [fst snd]. intros ->. reflexivity. }
  assert (F : Qt.setFixedSize w h = Raise OverflowError).
  { destruct (Qt.setFixedSize w h) as [fr|e] eqn:E.
    - destruct (setFixedSize_inv _ _ _ E) as (_ & Rw & Rh). exfalso. lia.
    - f_equal. unfold Qt.setFixedSize in E.
      destruct (Qt.c_int w) as [w'|e1] eqn:W; cbn [mbind result_bind] in E.
      + destruct (Qt.c_int h) as [h'|e2] eqn:H; cbn [mbind result_bind] in E;
          [discriminate|].
        injection E as <-. exact (c_int_raises _ _ H).
      + injection E as <-. exact (c_int_raises _ _ W). }
  unfold update_phone_style.
  unfold mbind at 1 2 3, M_bind, bindM, get, lift. rewrite G'. cbn [fst snd].
  unfold phone_style. rewrite Hw. cbn [mbind result_bind].
  rewrite Hh. cbn [mbind result_bind]. rewrite Hr. cbn [mbind result_bind].
  rewrite F. reflexivity.
Qed.

Lemma layout_raises_beyond_c_int_witness :
  let s := set_device_index 5
             (set_config_manager
                (fun cm => ConfigManager.add_custom_device cm "Wide"
                             (2 ^ 40) 844 50) running) in
  update_phone_style s = (Raise OverflowError, s).
Proof.
  intros s.
  apply (layout_raises_beyond_c_int s (mkDevice "Wide" (2 ^ 40) 844 50)
           769658139443 590 35).
  - reflexivity.
  - vm_compute. reflexivity.
  - vm_compute. reflexivity.
  - vm_compute. reflexivity.
  - left. right. simpl. lia.
Defined.

(** Reading the combined list at a selector index inside it. *)
Lemma get_current_device_at (s : t) (d : Device) :
  0 <= device_index s ->
  ConfigManager.get_all_devices (config_manager s)
    !! Z.to_nat (device_index s) = Some d ->
  (get_current_device s).1 = Ok d.
Proof.
  unfold get_current_device, mbind, M_bind, bindM, get, lift, getitem.
  cbn [fst snd]. intros H L. rewrite (proj2 (Z.leb_le _ _) H).
  destruct (device_index s <? 0) eqn:E; [apply Z.ltb_lt in E; lia|].
  rewrite E, L. reflexivity.
Qed.

(** [get_current_device] reads the combined list at the selector's index:
    with no selection (a negative index) it falls back to the first
    built-in profile, with an index past the end it raises [IndexError],
    and it never changes the state. *)
Theorem get_current_device_cases (s : t) :
  (get_current_device s).2 = s /\
  (device_index s < 0 ->
     (get_current_device s).1 = Ok (mkDevice "iPhone 17" 393 852 55)) /\
  (forall d, 0 <= device_index s ->
     ConfigManager.get_all_devices (config_manager s)
       !! Z.to_nat (device_index s) = Some d ->
     (get_current_device s).1 = Ok d) /\
  (device_count s <= device_index s ->
     (get_current_device s).1 = Raise IndexError).
Proof.
  unfold get_current_device, mbind, M_bind, bindM, get, lift, getitem, device_count.
  cbn [fst snd].
  split; [reflexivity|]. split; [|split].
  - intros H. destruct (0 <=? device_index s) eqn:E; [apply Z.leb_le in E; lia|].
    reflexivity.
  - intros d H L. rewrite (proj2 (Z.leb_le _ _) H).
    destruct (device_index s <? 0) eqn:E; [apply Z.ltb_lt in E; lia|].
    rewrite E, L. reflexivity.
  - intros H.
    set (all := ConfigManager.get_all_devices (config_manager s)) in *.
    assert (0 <= device_index s) as P by lia.
    rewrite (proj2 (Z.leb_le _ _) P).
    destruct (device_index s <? 0) eqn:E; [apply Z.ltb_lt in E; lia|].
    rewrite E, (lookup_ge_None_2 all) by lia. reflexivity.
Qed.

Lemma get_current_device_cases_witness :
  (get_current_device (set_device_index (-1) running)).1 =
    Ok (mkDevice "iPhone 17" 393 852 55) /\
  (get_current_device (set_device_index 5 running)).1 = Raise IndexError.
Proof.
  split.
  - apply (proj1 (proj2 (get_current_device_cases
                           (set_device_index (-1) running)))).
    simpl. lia.
  - apply (proj2 (proj2 (proj2 (get_current_device_cases
                                  (set_device_index 5 running))))).
    vm_compute. discriminate.
Defined.

(** Dragging: after the left button goes down at [p0], whatever points the
    pointer passes through, the window ends up displaced by exactly the
    pointer's total displacement, and the last point is remembered. *)
Theorem drag_moves_window_by_pointer (w : Window.t) (p0 : Z * Z)
    (moves : list (Z * Z)) :
  let w' := foldl (fun w p => Window.mouseMoveEvent p w)
              (Window.mousePressEvent Window.LeftButton p0 w) moves in
  let p := List.last moves p0 in
  Window.pos w' =
    ((Window.pos w).1 + (p.1 - p0.1), (Window.pos w).2 + (p.2 - p0.2)) /\
  Window.old_pos w' = Some p /\
  Window.sim w' = Window.sim w.
Proof.
  cbn zeta. unfold Window.mousePressEvent.
  assert (G : forall moves w1 q,
            Window.old_pos w1 = Some q ->
            let w' := foldl (fun w p => Window.mouseMoveEvent p w) w1 moves in
            let p := List.last moves q in
            Window.pos w' =
              ((Window.pos w1).1 + (p.1 - q.1), (Window.pos w1).2 + (p.2 - q.2)) /\
            Window.old_pos w' = Some p /\ Window.sim w' = Window.sim w1).
  { clear. induction moves as [|m moves IH]; intros w1 q O; cbn zeta.
    - simpl. rewrite O. destruct (Window.pos w1). simpl.
      split; [f_equal; lia|]. split; reflexivity.
    - cbn [foldl].
      assert (O' : Window.old_pos (Window.mouseMoveEvent m w1) = Some m)
        by (unfold Window.mouseMoveEvent; rewrite O; reflexivity).
      destruct (IH _ _ O') as (A & B & C).
      assert (L : List.last (m :: moves) q = List.last moves m)
        by (clear; revert m; induction moves as [|a l IHl]; intros m;
            [reflexivity|]; simpl in *; destruct l; [reflexivity|apply IHl]).
      rewrite L, A, B, C.
      unfold Window.mouseMoveEvent. rewrite O. cbn [Window.pos Window.move
        Window.set_old_pos Window.sim fst snd].
      split; [f_equal; lia|]. split; reflexivity. }
  apply (G moves (Window.set_old_pos (Some p0) w) p0). reflexivity.
Qed.

(** A move with no button down, a move after the release, and a press of
    another button leave the window where it is. *)
Theorem no_drag_without_left_press (w : Window.t) (p q : Z * Z) :
  (Window.old_pos w = None -> Window.mouseMoveEvent p w = w) /\
  Window.pos (Window.mouseMoveEvent p (Window.mouseReleaseEvent w)) =
    Window.pos w /\
  Window.mousePressEvent Window.RightButton q w = w /\
  Window.mousePressEvent Window.MiddleButton q w = w.
Proof.
  split; [|repeat split].
  intros O. unfold Window.mouseMoveEvent. rewrite O. reflexivity.
Qed.

(** Immersion: [toggle_immersion] and the Esc shortcut are the same
    action; each flips the flag and shows the control panel and the
    copyright label exactly when immersion is off, also when resizing the
    window raises, and leaves the configuration manager as it is; doing
    it twice restores the flag. *)
Theorem immersion_toggles_chrome (w : Window.t) :
  let w1 := (Window.toggle_immersion w).2 in
  let w2 := (Window.toggle_immersion w1).2 in
  Window.on_esc_pressed w = Window.toggle_immersion w /\
  Window.is_immersion w1 = negb (Window.is_immersion w) /\
  Window.control_panel_visible w1 = negb (Window.is_immersion w1) /\
  Window.copy_label_visible w1 = negb (Window.is_immersion w1) /\
  config_manager (Window.sim w1) = config_manager (Window.sim w) /\
  Window.is_immersion w2 = Window.is_immersion w /\
  Window.control_panel_visible w2 = negb (Window.is_immersion w) /\
  config_manager (Window.sim w2) = config_manager (Window.sim w).
Proof.
  cbn zeta. split; [reflexivity|].
  assert (T : forall w,
            Window.is_immersion (Window.toggle_immersion w).2 =
              negb (Window.is_immersion w) /\
            Window.control_panel_visible (Window.toggle_immersion w).2 =
              Window.is_immersion w /\
            Window.copy_label_visible (Window.toggle_immersion w).2 =
              Window.is_immersion w /\
            config_manager (Window.sim (Window.toggle_immersion w).2) =
              config_manager (Window.sim w)).
  { clear. intros w. unfold Window.toggle_immersion, Window.lift_sim.
    unfold mbind, M_bind, bindM, get, modify. cbn [fst snd].
    pose proof (adjust_window_size_config_manager (Window.sim w)) as C.
    destruct (adjust_window_size _) as [[[]|e] s'] eqn:E in |- *;
      cbn [fst snd Window.is_immersion Window.control_panel_visible
           Window.copy_label_visible Window.sim Window.set_chrome_visible
           Window.set_immersion] in *;
      rewrite E in C; cbn [snd] in C;
      rewrite negb_involutive; repeat split; exact C. }
  destruct (T w) as (A & B & C & D).
  destruct (T (Window.toggle_immersion w).2) as (A' & B' & C' & D').
  rewrite A', B', A, B, C, D', D, !negb_involutive. repeat split.
Qed.

(** [center_on_screen] puts the window in the middle of the screen: on
    each axis the gap after the window is the gap before it or one pixel
    more. *)
Theorem window_is_centred (screen : Z * Z) (w : Window.t) :
  let size := window_size (Window.sim w) in
  let p := Window.pos (Window.center_on_screen screen w) in
  (screen.1 - (p.1 + size.1) = p.1 \/ screen.1 - (p.1 + size.1) = p.1 + 1) /\
  (screen.2 - (p.2 + size.2) = p.2 \/ screen.2 - (p.2 + size.2) = p.2 + 1).
Proof.
  cbn zeta. unfold Window.center_on_screen.
  cbn [Window.pos Window.move fst snd].
  destruct screen as [sw sh], (window_size (Window.sim w)) as [ww wh].
  cbn [fst snd].
  pose proof (Z.div_mod (sw - ww) 2 ltac:(lia)).
  pose proof (Z.mod_pos_bound (sw - ww) 2 ltac:(lia)).
  pose proof (Z.div_mod (sh - wh) 2 ltac:(lia)).
  pose proof (Z.mod_pos_bound (sh - wh) 2 ltac:(lia)).
  lia.
Qed.

End WindowProperties.

(** * Invariants of a session *)

Section SessionProperties.
Import PhoneSimulator.
Variable int_of_text : string -> result Z.

Ltac run_monad :=
  unfold mbind, M_bind, mret, M_ret, bindM, ret, get, modify, lift, slot, when.

Lemma manager_step_store (cm : ConfigManager.t) (l : list Device) :
  Window.manager_step cm
    (ConfigManager.save_config
       (ConfigManager.with_config
          (ConfigManager.set_custom_devices l (ConfigManager.config cm)) cm)).
Proof. eapply Window.ms_saved; [reflexivity..|left; reflexivity]. Qed.

Lemma add_dialog_config_manager (s : t) (accepted : bool)
    (name wt ht rt : string) :
  Window.manager_step (config_manager s)
    (config_manager (show_add_device_dialog int_of_text accepted name wt ht rt s).2).
Proof.
  unfold show_add_device_dialog, try_except_ValueError. run_monad.
  destruct accepted; [|apply Window.ms_same; reflexivity].
  destruct (int_of_text wt) as [w|e]; [|destruct e; apply Window.ms_same; reflexivity].
  destruct (int_of_text ht) as [h|e]; [|destruct e; apply Window.ms_same; reflexivity].
  destruct (int_of_text rt) as [r|e]; [|destruct e; apply Window.ms_same; reflexivity].
  cbn -[refresh_device_list setCurrentIndex].
  pose proof refresh_device_list_ok as RO.
  pose proof refresh_device_list_config_manager as RC.
  match goal with
  | |- context [refresh_device_list ?s0] =>
      specialize (RO s0); specialize (RC s0);
      destruct (refresh_device_list s0) as [[[]|e] s1];
      cbn -[setCurrentIndex] in *; [|discriminate]
  end.
  match goal with
  | |- context [setCurrentIndex ?i ?s0] =>
      pose proof (setCurrentIndex_config_manager i s0) as C;
      pose proof (setCurrentIndex_ok i s0) as O;
      destruct (setCurrentIndex i s0) as [[[]|e] s2]; cbn in *;
      [|discriminate]
  end.
  rewrite C, RC. apply manager_step_store.
Qed.

Lemma edit_dialog_config_manager (s : t) (index : Z) (accepted : bool)
    (name wt ht rt : string) :
  Window.manager_step (config_manager s)
    (config_manager
       (show_edit_device_dialog int_of_text index accepted name wt ht rt s).2).
Proof.
  unfold show_edit_device_dialog, try_except_ValueError, show_manage_devices_dialog.
  run_monad. cbn [fst snd].
  destruct (getitem _ index) as [d|e]; [|apply Window.ms_same; reflexivity].
  destruct accepted; [|apply Window.ms_same; reflexivity].
  destruct (int_of_text wt) as [w|e]; [|destruct e; apply Window.ms_same; reflexivity].
  destruct (int_of_text ht) as [h|e]; [|destruct e; apply Window.ms_same; reflexivity].
  destruct (int_of_text rt) as [r|e]; [|destruct e; apply Window.ms_same; reflexivity].
  cbn -[refresh_device_list].
  pose proof refresh_device_list_ok as RO.
  pose proof refresh_device_list_config_manager as RC.
  match goal with
  | |- context [refresh_device_list ?s0] =>
      specialize (RO s0); specialize (RC s0);
      destruct (refresh_device_list s0) as [[[]|e] s1];
      cbn in *; [|discriminate]
  end.
  rewrite RC. unfold ConfigManager.update_custom_device.
  destruct (ConfigManager.in_range _ _);
    [apply manager_step_store|apply Window.ms_same; reflexivity].
Qed.

Lemma delete_device_config_manager (s : t) (index : Z) (confirmed : bool) :
  Window.manager_step (config_manager s)
    (config_manager (delete_device index confirmed s).2).
Proof.
  unfold delete_device, show_manage_devices_dialog. run_monad.
  destruct confirmed; [|apply Window.ms_same; reflexivity].
  cbn -[refresh_device_list].
  pose proof refresh_device_list_ok as RO.
  pose proof refresh_device_list_config_manager as RC.
  match goal with
  | |- context [refresh_device_list ?s0] =>
      specialize (RO s0); specialize (RC s0);
      destruct (refresh_device_list s0) as [[[]|e] s1];
      cbn in *; [|discriminate]
  end.
  rewrite RC. unfold ConfigManager.delete_custom_device.
  destruct (ConfigManager.in_range _ _);
    [apply manager_step_store|apply Window.ms_same; reflexivity].
Qed.

Lemma step_config_manager (a : Window.Action) (s : t) :
  Window.manager_step (config_manager s)
    (config_manager (Window.step int_of_text a s)).
Proof.
  unfold Window.step, slot. cbn [snd].
  destruct a as [i|k|item|url| |acc nm wt ht rt|idx acc nm wt ht rt|idx conf];
    cbn [Window.handler].
  - rewrite setCurrentIndex_config_manager. apply Window.ms_same; reflexivity.
  - unfold on_frame_changed. run_monad.
    cbn [fst snd frame_text set_frame_text].
    destruct (frame_colors k) as [base border].
    rewrite update_phone_style_config_manager.
    apply (Window.ms_frame _ _ base border). reflexivity.
  - unfold on_scale_changed. run_monad.
    cbn [fst snd scale_text set_scale_text].
    destruct (match item with Auto => _ | Percent n => _ end) as [val|e];
      [|apply Window.ms_same; reflexivity].
    cbn [fst snd].
    match goal with
    | |- context [update_phone_style ?s0] =>
        pose proof (update_phone_style_config_manager s0) as U;
        destruct (update_phone_style s0) as [[[]|e] s1]; cbn [fst snd] in *
    end.
    + rewrite adjust_window_size_config_manager, U.
      apply (Window.ms_saved _ _ (set_scale val (ConfigManager.config (config_manager s))));
        [reflexivity..|left; reflexivity].
    + rewrite U.
      apply (Window.ms_saved _ _ (set_scale val (ConfigManager.config (config_manager s))));
        [reflexivity..|left; reflexivity].
  - apply Window.ms_same; reflexivity.
  - unfold load_url. run_monad. cbn [fst snd].
    eapply Window.ms_saved; [reflexivity..|]. right. cbn [last_url set_url].
    destruct (String.prefix "http" (url_input s)) eqn:E; [exact E|reflexivity].
  - apply add_dialog_config_manager.
  - apply edit_dialog_config_manager.
  - apply delete_device_config_manager.
Qed.

Lemma run_cons (a : Window.Action) (l : list Window.Action) (s : t) :
  Window.run int_of_text (a :: l) s =
  Window.run int_of_text l (Window.step int_of_text a s).
Proof. reflexivity. Qed.

(** Through any sequence of actions [last_device_index] keeps the value it
    was loaded with: choosing another device is never written to the
    dictionary. *)
Theorem session_keeps_last_device_index (l : list Window.Action) (s : t) :
  last_device_index (config (Window.run int_of_text l s)) =
  last_device_index (config s).
Proof.
  revert s. induction l as [|a l IH]; intros s; [reflexivity|].
  rewrite run_cons, IH. unfold config.
  destruct (step_config_manager a s) as [->| b bd ->| c' -> E _ _ _];
    [reflexivity|reflexivity|exact E].
Qed.

(** Through any sequence of actions the file keeps up with the dictionary
    in everything but the two frame colours: a state whose file holds the
    dictionary up to those two keys is followed only by such states. *)
Theorem session_file_lags_only_in_frame_colours (l : list Window.Action)
    (s : t) :
  Window.saved_up_to_frame s ->
  Window.saved_up_to_frame (Window.run int_of_text l s).
Proof.
  revert s. induction l as [|a l IH]; intros s I; [exact I|].
  rewrite run_cons. apply IH. clear IH.
  destruct I as (fc & F & E). unfold Window.saved_up_to_frame, config in *.
  destruct (step_config_manager a s) as [->| b bd ->| c' -> _ _ _ _].
  - exists fc. split; assumption.
  - exists fc. split; [exact F|].
    cbn [ConfigManager.config ConfigManager.with_config].
    rewrite E. reflexivity.
  - exists c'. split; [reflexivity|].
    cbn [ConfigManager.config ConfigManager.with_config ConfigManager.save_config].
    destruct c'; reflexivity.
Qed.

(** Once [last_url] starts with ["http"] it does so after every sequence
    of actions. *)
Theorem session_keeps_url_http (l : list Window.Action) (s : t) :
  String.prefix "http" (last_url (config s)) = true ->
  String.prefix "http" (last_url (config (Window.run int_of_text l s))) = true.
Proof.
  revert s. induction l as [|a l IH]; intros s I; [exact I|].
  rewrite run_cons. apply IH. clear IH. unfold config in *.
  destruct (step_config_manager a s) as [->| b bd ->| c' -> _ _ _ [U|U]].
  - exact I.
  - exact I.
  - cbn [ConfigManager.config ConfigManager.with_config ConfigManager.save_config].
    rewrite U. exact I.
  - exact U.
Qed.

End SessionProperties.

Lemma session_file_lags_only_in_frame_colours_witness :
  Window.saved_up_to_frame
    (Window.run PyInt.of_string
       [Window.SelectFrame PhoneSimulator.LuxuryGold;
        Window.AddDevice true "Test" "300" "600" "20";
        Window.SelectFrame PhoneSimulator.SkyBlue;
        Window.SelectDevice 5]
       PhoneSimulator.running).
Proof.
  apply (session_file_lags_only_in_frame_colours PyInt.of_string).
  exists ConfigManager.default_config. split; reflexivity.
Defined.

Lemma session_keeps_url_http_witness :
  String.prefix "http"
    (last_url
       (PhoneSimulator.config
          (Window.run PyInt.of_string
             [Window.TypeUrl "example.org"; Window.Connect;
              Window.SelectScale (PhoneSimulator.Percent 90)]
             PhoneSimulator.running))) = true.
Proof.
  apply (session_keeps_url_http PyInt.of_string). reflexivity.
Defined.

(** * Properties of the handlers, continued *)

Section MoreHandlerProperties.
Import PhoneSimulator.

Ltac run_monad :=
  unfold mbind, M_bind, mret, M_ret, bindM, ret, get, modify, lift, slot, when.

Lemma get_current_device_eq (s : t) :
  get_current_device s = ((get_current_device s).1, s).
Proof. reflexivity. Qed.

Lemma get_current_device_ext (s s' : t) :
  device_index s' = device_index s ->
  custom_devices (config s') = custom_devices (config s) ->
  (get_current_device s').1 = (get_current_device s).1.
Proof.
  intros I C. unfold get_current_device, ConfigManager.get_all_devices.
  run_monad. cbn [fst snd]. unfold config in C. rewrite I, C. reflexivity.
Qed.

Lemma update_phone_style_ok (s : t) (d : Device) (ov : BezelOverlay.t)
    (st : PhoneStyle) :
  (get_current_device s).1 = Ok d ->
  phone_style (config s) d (bezel_overlay s) = Ok (ov, st) ->
  update_phone_style s = (Ok (), set_style ov st s).
Proof.
  intros G P. unfold update_phone_style. run_monad.
  rewrite get_current_device_eq, G. cbn [fst snd]. rewrite P. reflexivity.
Qed.

Lemma adjust_window_size_ok (s : t) (d : Device) (w h : Z) :
  (get_current_device s).1 = Ok d ->
  scaled (width d) (last_scale (config s)) = Ok w ->
  scaled (height d) (last_scale (config s)) = Ok h ->
  Z.abs w < 2 ^ 30 -> Z.abs h < 2 ^ 30 ->
  adjust_window_size s =
  (Ok (), set_window_size (Z.max 600 (w + 100), Z.max 500 (h + 150)) s).
Proof.
  intros G W H Bw Bh. unfold adjust_window_size. run_monad.
  rewrite get_current_device_eq, G. cbn [fst snd]. rewrite W. cbn [fst snd].
  rewrite H. cbn [fst snd]. rewrite resize_ok by lia. reflexivity.
Qed.

Lemma update_phone_style_device_index (s : t) :
  device_index (update_phone_style s).2 = device_index s.
Proof.
  unfold update_phone_style. run_monad.
  rewrite get_current_device_eq. cbn [fst snd].
  destruct (get_current_device s).1; cbn [fst snd]; [|reflexivity].
  destruct (phone_style _ _ _); reflexivity.
Qed.

Lemma adjust_window_size_device_index (s : t) :
  device_index (adjust_window_size s).2 = device_index s.
Proof.
  unfold adjust_window_size. run_monad.
  rewrite get_current_device_eq. cbn [fst snd].
  destruct (get_current_device s).1 as [d|]; cbn [fst snd]; [|reflexivity].
  destruct (scaled (width d) _); cbn [fst snd]; [|reflexivity].
  destruct (scaled (height d) _); cbn [fst snd]; [|reflexivity].
  destruct (Qt.resize _ _); reflexivity.
Qed.

Lemma on_device_changed_device_index (s : t) :
  device_index (on_device_changed s).2 = device_index s.
Proof.
  unfold on_device_changed. run_monad.
  pose proof (update_phone_style_device_index s) as U.
  destruct (update_phone_style s) as [[[]|e] s']; cbn [fst snd] in *.
  - rewrite adjust_window_size_device_index. exact U.
  - exact U.
Qed.

Lemma refresh_device_list_device_index (s : t) :
  device_index (refresh_device_list s).2 = 0.
Proof.
  unfold refresh_device_list. run_monad. cbn [fst snd].
  rewrite on_device_changed_device_index. reflexivity.
Qed.

Lemma setCurrentIndex_device_index (i : Z) (s : t) :
  device_index (setCurrentIndex i s).2 = i.
Proof.
  unfold setCurrentIndex. run_monad. cbn [fst snd].
  destruct (i =? device_index s) eqn:E; cbn [fst snd].
  - apply Z.eqb_eq in E. congruence.
  - rewrite on_device_changed_device_index. reflexivity.
Qed.

Lemma scale_items_magnitude (item : ScaleItem) :
  In item scale_items ->
  exists val, Window.scale_of_item item = Ok val /\
              scale_in_range val /\
              scale_selector_at_start val =
                Ok (match item with Auto => Percent 75 | _ => item end).
Proof.
  intros H. simpl in H.
  destruct H as [<-|[<-|[<-|[<-|[<-|[<-|[<-|[]]]]]]]];
    eexists; (split; [vm_compute; reflexivity|]); split; vm_compute; reflexivity.
Qed.

(** A scale chosen in the selector comes back after a restart: the value
    [on_scale_changed] stores for an item makes [setCurrentText] select
    that same item at the next start, and "Auto" comes back as 75%. With
    the built-in default 0.7, which is no item, the selector shows 50%. *)
Theorem scale_selection_survives_restart (s : t) (item : ScaleItem) :
  In item scale_items ->
  scale_selector_at_start
    (last_scale (config (on_scale_changed (set_scale_text item s)).2)) =
    Ok (match item with Auto => Percent 75 | _ => item end) /\
  scale_selector_at_start (last_scale ConfigManager.default_config) =
    Ok (Percent 50).
Proof.
  intros H. split; [|vm_compute; reflexivity].
  destruct (scale_items_magnitude item H) as (val & V & _ & R).
  rewrite (proj1 (on_scale_changed_writes_through
                    (set_scale_text item s) val V)).
  exact R.
Qed.

Lemma scale_selection_survives_restart_witness :
  scale_selector_at_start
    (last_scale (config (on_scale_changed
                           (set_scale_text (Percent 90) running)).2)) =
    Ok (Percent 90).
Proof.
  apply (scale_selection_survives_restart running (Percent 90)).
  simpl. tauto.
Defined.

(** Every item of the scale selector gives a layout: with a profile
    selected whose dimensions are below [2^16] in absolute value,
    [on_scale_changed] completes, saves the new scale, stores the layout
    [phone_style] computes for it, sets the browser zoom to the scale, and
    resizes the window to the frame plus 100 x 150, but never below
    600 x 500. *)
Theorem every_scale_item_lays_out (s : t) (item : ScaleItem) (d : Device) :
  In item scale_items ->
  (get_current_device s).1 = Ok d ->
  dims_in_range d ->
  let s' := (on_scale_changed (set_scale_text item s)).2 in
  (on_scale_changed (set_scale_text item s)).1 = Ok () /\
  Window.scale_of_item item = Ok (last_scale (config s')) /\
  ConfigManager.file (config_manager s') = Some (config s') /\
  exists st,
    phone_style (config s') d (bezel_overlay s) = Ok (bezel_overlay s', st) /\
    style s' = Some st /\
    zoom st = last_scale (config s') /\
    window_size s' = (Z.max 600 ((frame_size st).1 + 100),
                      Z.max 500 ((frame_size st).2 + 150)).
Proof.
  intros H G D. cbn zeta.
  destruct (scale_items_magnitude item H) as (val & V & B & _).
  set (s0 := set_scale_text item s).
  set (s1 := set_config_manager ConfigManager.save_config
               (set_config (set_scale val) s0)).
  assert (E : on_scale_changed s0 =
              (update_phone_style ;; adjust_window_size) s1).
  { unfold on_scale_changed. run_monad. cbn [fst snd].
    change (match scale_text s0 with
            | Percent n => PyFloat.int_truediv n (PyFloat.literal 100 1)
            | Auto => Ok (PyFloat.literal 75 100)
            end) with (Window.scale_of_item item).
    rewrite V. reflexivity. }
  assert (G1 : (get_current_device s1).1 = Ok d)
    by (rewrite <- G; apply get_current_device_ext; reflexivity).
  assert (S1 : last_scale (config s1) = val) by reflexivity.
  destruct (phone_style_in_range (config s1) d (bezel_overlay s1) D
              ltac:(rewrite S1; exact B))
    as (w & h & r & bw & blur & yoff & iw & ih & top &
        Hw & Hh & Hr & Hb & Bw & Bh & P).
  pose proof (update_phone_style_ok s1 d _ _ G1 P) as U.
  match type of U with
  | _ = (_, ?s2') => set (s2 := s2') in *
  end.
  assert (G2 : (get_current_device s2).1 = Ok d)
    by (rewrite <- G1; apply get_current_device_ext; reflexivity).
  pose proof (adjust_window_size_ok s2 d w h G2 Hw Hh ltac:(lia) ltac:(lia)) as A.
  rewrite E. run_monad. rewrite U. cbn [fst snd]. rewrite A. cbn [fst snd].
  split; [reflexivity|]. split; [rewrite V; reflexivity|].
  split; [reflexivity|].
  eexists. split; [exact P|]. split; [reflexivity|]. split; reflexivity.
Qed.

Lemma every_scale_item_lays_out_witness :
  (on_scale_changed (set_scale_text Auto running)).1 = Ok () /\
  Window.scale_of_item Auto =
    Ok (last_scale (config (on_scale_changed
                              (set_scale_text Auto running)).2)).
Proof.
  pose proof (every_scale_item_lays_out running Auto
                (mkDevice "iPhone 13/14/15" 390 844 50)
                ltac:(simpl; tauto) eq_refl
                ltac:(unfold dims_in_range; simpl; lia)) as (A & B & _).
  split; [exact A|exact B].
Defined.

(** A confirmed delete hands the index to [delete_custom_device] and puts
    the device selector back on its first item, whether or not a profile
    was removed; an unconfirmed one changes nothing. *)
Theorem delete_device_resets_selection (s : t) (idx : Z) :
  delete_device idx false s = (Ok (), s) /\
  (delete_device idx true s).1 = Ok () /\
  config_manager (delete_device idx true s).2 =
    ConfigManager.delete_custom_device (config_manager s) idx /\
  device_index (delete_device idx true s).2 = 0.
Proof.
  split; [reflexivity|].
  unfold delete_device, show_manage_devices_dialog. run_monad.
  cbn -[refresh_device_list].
  match goal with
  | |- context [refresh_device_list ?s0] =>
      pose proof (refresh_device_list_ok s0) as RO;
      pose proof (refresh_device_list_config_manager s0) as RC;
      pose proof (refresh_device_list_device_index s0) as RI;
      destruct (refresh_device_list s0) as [[[]|e] s1];
      cbn in *; [|discriminate]
  end.
  split; [reflexivity|]. split; [exact RC|exact RI].
Qed.

Lemma update_phone_style_inputs (s : t) :
  url_input (update_phone_style s).2 = url_input s /\
  browser_url (update_phone_style s).2 = browser_url s.
Proof.
  unfold update_phone_style. run_monad.
  rewrite get_current_device_eq. cbn [fst snd].
  destruct (get_current_device s).1; cbn [fst snd]; [|split; reflexivity].
  destruct (phone_style _ _ _); split; reflexivity.
Qed.

Lemma adjust_window_size_inputs (s : t) :
  url_input (adjust_window_size s).2 = url_input s /\
  browser_url (adjust_window_size s).2 = browser_url s.
Proof.
  unfold adjust_window_size. run_monad.
  rewrite get_current_device_eq. cbn [fst snd].
  destruct (get_current_device s).1 as [d|]; cbn [fst snd]; [|split; reflexivity].
  destruct (scaled (width d) _); cbn [fst snd]; [|split; reflexivity].
  destruct (scaled (height d) _); cbn [fst snd]; [|split; reflexivity].
  destruct (Qt.resize _ _); split; reflexivity.
Qed.

Lemma setCurrentIndex_inputs (i : Z) (s : t) :
  url_input (setCurrentIndex i s).2 = url_input s /\
  browser_url (setCurrentIndex i s).2 = browser_url s.
Proof.
  unfold setCurrentIndex, on_device_changed. run_monad. cbn [fst snd].
  destruct (i =? device_index s); cbn [fst snd]; [split; reflexivity|].
  match goal with
  | |- context [update_phone_style ?s0] =>
      pose proof (update_phone_style_inputs s0) as (U1 & U2);
      destruct (update_phone_style s0) as [[[]|e] s1]; cbn [fst snd] in *
  end.
  - destruct (adjust_window_size_inputs s1) as (A1 & A2).
    rewrite A1, A2, U1, U2. split; reflexivity.
  - rewrite U1, U2. split; reflexivity.
Qed.

Section Dialogs.
Variable int_of_text : string -> result Z.

(** After a profile is added through the dialog it is the selected one:
    the selector stands on the last item and [get_current_device] returns
    the new profile. *)
Theorem added_device_becomes_current (s : t) (name wt ht rt : string)
    (w h r : Z) :
  int_of_text wt = Ok w -> int_of_text ht = Ok h -> int_of_text rt = Ok r ->
  let s' := (show_add_device_dialog int_of_text true name wt ht rt s).2 in
  device_index s' = device_count s' - 1 /\
  device_count s' = device_count s + 1 /\
  (get_current_device s').1 = Ok (mkDevice name w h r).
Proof.
  intros Ew Eh Er. cbn zeta.
  unfold show_add_device_dialog, try_except_ValueError. run_monad.
  rewrite Ew, Eh, Er. cbn -[refresh_device_list setCurrentIndex].
  match goal with
  | |- context [refresh_device_list ?s0] =>
      pose proof (refresh_device_list_ok s0) as RO;
      pose proof (refresh_device_list_config_manager s0) as RC;
      destruct (refresh_device_list s0) as [[[]|e] s1];
      cbn -[setCurrentIndex] in *; [|discriminate]
  end.
  match goal with
  | |- context [setCurrentIndex ?i ?s0] =>
      pose proof (setCurrentIndex_config_manager i s0) as C;
      pose proof (setCurrentIndex_ok i s0) as O;
      pose proof (setCurrentIndex_device_index i s0) as I;
      destruct (setCurrentIndex i s0) as [[[]|e] s2]; cbn in *;
      [|discriminate]
  end.
  assert (A : ConfigManager.get_all_devices (config_manager s2) =
              ConfigManager.get_all_devices (config_manager s) ++
              [mkDevice name w h r]).
  { rewrite C, RC. unfold ConfigManager.get_all_devices.
    cbn [ConfigManager.config custom_devices]. apply app_assoc. }
  assert (N : device_count s2 = device_count s + 1).
  { unfold device_count. rewrite A, length_app. simpl. lia. }
  assert (N1 : device_count s1 = device_count s2)
    by (unfold device_count; rewrite C; reflexivity).
  split; [rewrite I, N1; reflexivity|]. split; [exact N|].
  apply get_current_device_at.
  - rewrite I, N1, N. unfold device_count. lia.
  - rewrite I, N1, N, A. unfold device_count.
    replace (Z.to_nat (Z.of_nat (length (ConfigManager.get_all_devices
                                           (config_manager s))) + 1 - 1))
      with (length (ConfigManager.get_all_devices (config_manager s))) by lia.
    apply list_lookup_middle. reflexivity.
Qed.

(** Editing a custom profile: an index at or past the end of the custom
    list raises [IndexError] before any dialog opens and changes nothing;
    with an index inside the list, a dialog that is not accepted changes
    nothing, and an accepted one whose three texts are integers hands them
    to [update_custom_device]. *)
Theorem edit_dialog_cases (s : t) (index : Z) (accepted : bool)
    (name wt ht rt : string) :
  (Z.of_nat (length (custom_devices (config s))) <= index ->
     show_edit_device_dialog int_of_text index accepted name wt ht rt s =
     (Raise IndexError, s)) /\
  (0 <= index < Z.of_nat (length (custom_devices (config s))) ->
     show_edit_device_dialog int_of_text index false name wt ht rt s =
       (Ok (), s) /\
     forall w h r,
       int_of_text wt = Ok w -> int_of_text ht = Ok h ->
       int_of_text rt = Ok r ->
       config_manager
         (show_edit_device_dialog int_of_text index true name wt ht rt s).2 =
       ConfigManager.update_custom_device (config_manager s) index name w h r).
Proof.
  unfold show_edit_device_dialog, try_except_ValueError,
    show_manage_devices_dialog, getitem.
  run_monad. cbn [fst snd].
  set (l := custom_devices (config s)).
  split.
  - intros H.
    destruct (index <? 0) eqn:E; [apply Z.ltb_lt in E; lia|].
    rewrite E, (lookup_ge_None_2 l) by lia. reflexivity.
  - intros H.
    destruct (index <? 0) eqn:E; [apply Z.ltb_lt in E; lia|].
    rewrite E.
    destruct (lookup_lt_is_Some_2 l (Z.to_nat index) ltac:(lia)) as (d & L).
    rewrite L. split; [reflexivity|].
    intros w h r Ew Eh Er. rewrite Ew, Eh, Er.
    cbn -[refresh_device_list].
    match goal with
    | |- context [refresh_device_list ?s0] =>
        pose proof (refresh_device_list_ok s0) as RO;
        pose proof (refresh_device_list_config_manager s0) as RC;
        destruct (refresh_device_list s0) as [[[]|e] s1];
        cbn in *; [|discriminate]
    end.
    exact RC.
Qed.

End Dialogs.

Lemma added_device_becomes_current_witness :
  (get_current_device
     (show_add_device_dialog PyInt.of_string true "Test" "300" "600" "20"
        running).2).1 = Ok (mkDevice "Test" 300 600 20).
Proof.
  apply (added_device_becomes_current PyInt.of_string running "Test" "300"
           "600" "20" 300 600 20); reflexivity.
Defined.

Lemma edit_dialog_cases_witness :
  show_edit_device_dialog PyInt.of_string 0 true "X" "1" "2" "3" running =
  (Raise IndexError, running).
Proof.
  apply (proj1 (edit_dialog_cases PyInt.of_string running 0 true "X" "1" "2" "3")).
  simpl. lia.
Defined.

Lemma update_phone_style_scale_text (s : t) :
  scale_text (update_phone_style s).2 = scale_text s.
Proof.
  unfold update_phone_style. run_monad.
  rewrite get_current_device_eq. cbn [fst snd].
  destruct (get_current_device s).1; cbn [fst snd]; [|reflexivity].
  destruct (phone_style _ _ _); reflexivity.
Qed.

Lemma adjust_window_size_scale_text (s : t) :
  scale_text (adjust_window_size s).2 = scale_text s.
Proof.
  unfold adjust_window_size. run_monad.
  rewrite get_current_device_eq. cbn [fst snd].
  destruct (get_current_device s).1 as [d|]; cbn [fst snd]; [|reflexivity].
  destruct (scaled (width d) _); cbn [fst snd]; [|reflexivity].
  destruct (scaled (height d) _); cbn [fst snd]; [|reflexivity].
  destruct (Qt.resize _ _); reflexivity.
Qed.

Lemma setCurrentIndex_scale_text (i : Z) (s : t) :
  scale_text (setCurrentIndex i s).2 = scale_text s.
Proof.
  unfold setCurrentIndex, on_device_changed. run_monad. cbn [fst snd].
  destruct (i =? device_index s); cbn [fst snd]; [reflexivity|].
  match goal with
  | |- context [update_phone_style ?s0] =>
      pose proof (update_phone_style_scale_text s0) as U;
      destruct (update_phone_style s0) as [[[]|e] s1]; cbn [fst snd] in *
  end.
  - rewrite adjust_window_size_scale_text. exact U.
  - exact U.
Qed.

(** With a scale in range [setCurrentText] finds its text. *)
Lemma scale_selector_at_start_total (x : float) :
  scale_in_range x -> exists item, scale_selector_at_start x = Ok item.
Proof.
  intros S. unfold scale_in_range in S.
  destruct (of_int_magnitude 100 7 ltac:(simpl; lia) ltac:(lia)) as (f & F & B).
  pose proof (mul_magnitude x f 4 8 S B ltac:(lia) ltac:(lia)) as P.
  destruct (to_int_defined _ _ P) as (n & N).
  unfold scale_selector_at_start. rewrite F. cbn [mbind result_bind].
  rewrite N. cbn [mbind result_bind]. eexists. reflexivity.
Qed.

(** A start over a file, or over none, whose scale is finite and below 16
    in absolute value writes the configuration file once: afterwards the
    file holds the dictionary, [last_url] starts with ["http"] and is the
    page the browser shows, the custom profiles and the scale are the
    loaded ones, the scale selector shows what [setCurrentText] found, and
    the device selector stands on [last_device_index] when that is an
    index of the combined list, on the first item otherwise. *)
Theorem startup_saves_config (file : option Config) :
  scale_in_range (last_scale (ConfigManager.load_config file)) ->
  let c := ConfigManager.load_config file in
  let s := startup file in
  ConfigManager.file (config_manager s) = Some (config s) /\
  ConfigManager.writes (config_manager s) = 1%nat /\
  String.prefix "http" (last_url (config s)) = true /\
  browser_url s = Some (last_url (config s)) /\
  custom_devices (config s) = custom_devices c /\
  last_scale (config s) = last_scale c /\
  scale_selector_at_start (last_scale c) = Ok (scale_text s) /\
  device_index s =
    (if (0 <=? last_device_index c) &&
        (last_device_index c <?
           Z.of_nat (length (ConfigManager.DEFAULT_DEVICES ++ custom_devices c)))
     then last_device_index c else 0).
Proof.
  intros B. cbn zeta. unfold startup.
  destruct (scale_selector_at_start_total _ B) as (item & I0).
  set (s00 := constructed file).
  assert (E0 : select_last_scale s00 = (Ok (), set_scale_text item s00)).
  { unfold select_last_scale. run_monad. cbn [fst snd].
    change (last_scale (config s00))
      with (last_scale (ConfigManager.load_config file)).
    rewrite I0. reflexivity. }
  set (s0 := set_scale_text item s00) in *.
  assert (G0 : (get_current_device s0).1 = Ok (mkDevice "iPhone 17" 393 852 55))
    by reflexivity.
  assert (D0 : dims_in_range (mkDevice "iPhone 17" 393 852 55))
    by (unfold dims_in_range; simpl; lia).
  destruct (phone_style_in_range (config s0) _ (bezel_overlay s0) D0 B)
    as (w & h & r & bw & blur & yoff & iw & ih & top & _ & _ & _ & _ & _ & _ & P).
  pose proof (update_phone_style_ok s0 _ _ _ G0 P) as U.
  match type of U with _ = (_, ?s1') => set (s1 := s1') in * end.
  run_monad. rewrite E0. cbn [fst snd]. rewrite U. cbn [fst snd].
  unfold apply_config. run_monad. cbn [fst snd].
  change (last_device_index (config s1))
    with (last_device_index (ConfigManager.load_config file)).
  change (device_count s1)
    with (Z.of_nat (length (ConfigManager.DEFAULT_DEVICES ++
                              custom_devices (ConfigManager.load_config file)))).
  set (idx := last_device_index (ConfigManager.load_config file)).
  set (guard := (0 <=? idx) && (idx <? _)).
  assert (S2 : exists s2,
            (if guard then setCurrentIndex idx else ret ()) s1 =
              (Ok (), s2) /\
            config_manager s2 = config_manager s1 /\
            url_input s2 = url_input s1 /\
            scale_text s2 = scale_text s1 /\
            device_index s2 = if guard then idx else 0).
  { destruct guard.
    - pose proof (setCurrentIndex_ok idx s1) as O.
      pose proof (setCurrentIndex_config_manager idx s1) as C.
      pose proof (setCurrentIndex_device_index idx s1) as I.
      pose proof (proj1 (setCurrentIndex_inputs idx s1)) as UI.
      pose proof (setCurrentIndex_scale_text idx s1) as ST.
      destruct (setCurrentIndex idx s1) as [[[]|e] s2]; cbn [fst snd] in *;
        [|discriminate].
      exists s2. repeat split; assumption.
    - exists s1. repeat split. }
  destruct S2 as (s2 & E2 & C2 & U2 & T2 & I2).
  rewrite E2. cbn [fst snd].
  unfold load_url. run_monad. cbn [fst snd].
  match goal with
  | |- context [adjust_window_size ?s3'] => set (s3 := s3')
  end.
  pose proof (adjust_window_size_config_manager s3) as AC.
  pose proof (adjust_window_size_device_index s3) as AI.
  pose proof (proj2 (adjust_window_size_inputs s3)) as AB.
  pose proof (adjust_window_size_scale_text s3) as AT.
  unfold config. rewrite AC, AI, AB, AT.
  subst s3. cbn [config_manager set_config_manager set_config set_browser_url
                 device_index browser_url scale_text ConfigManager.file
                 ConfigManager.config ConfigManager.writes
                 ConfigManager.save_config ConfigManager.with_config
                 last_url set_url custom_devices last_scale].
  rewrite C2, U2, T2.
  split; [reflexivity|]. split; [reflexivity|].
  split.
  { destruct (String.prefix "http" (url_input s1)) eqn:E; [exact E|reflexivity]. }
  split; [reflexivity|]. split; [reflexivity|]. split; [reflexivity|].
  split; [exact I0|].
  exact I2.
Qed.

Lemma startup_saves_config_witness :
  ConfigManager.file (config_manager (startup None)) =
    Some (config (startup None)) /\
  device_index (startup None) = 2.
Proof.
  pose proof (startup_saves_config None eq_refl)
    as (A & _ & _ & _ & _ & _ & _ & I).
  split; [exact A|exact I].
Defined.

End MoreHandlerProperties.
